(** * scraper.py: the film-industry job scraper, embedded and verified

    The class [FilmIndustryDataScraper] of [scraper.py] is embedded as
    monadic programs over an explicit world.  Python's exceptions, the
    function-local accumulators ([jobs], [professionals]), the browser
    session and the random source are all effects of the embedding; the
    external sites are oracles that fix what each library call answers. *)

From Stdlib Require Import List String Ascii Arith PeanoNat Lia Bool Permutation.
From Stdlib Require Import Decimal DecimalString.
Import ListNotations.
Open Scope string_scope.
Open Scope list_scope.

(** ** Exceptions and results

    Only subclasses of Python's [Exception] are modelled: they are what
    [requests], [bs4], [selenium] and the list and random primitives raise,
    and what [except Exception] catches. *)

Inductive exn : Type :=
| IndexError (msg : string)
| ValueError (msg : string)
| ZeroDivisionError (msg : string)
| RequestException (msg : string)
| WebDriverException (msg : string)
| NoSuchElementException (msg : string).

Definition str (e : exn) : string :=
  match e with
  | IndexError msg | ValueError msg | ZeroDivisionError msg
  | RequestException msg
  | WebDriverException msg | NoSuchElementException msg => msg
  end.

Inductive result (A : Type) : Type :=
| Ok (a : A)
| Raise (e : exn).
Arguments Ok {A} a.
Arguments Raise {A} e.

(** ** The world

    [entropy] is the raw output of the random source, read in order;
    [consumed] counts the draws made so far.  [browser] logs the session
    events of the Chrome driver, oldest first, and [stdout] the lines
    printed. *)

Inductive SessionEvent : Type :=
| SessionStarted
| QuitCalled.

Record World : Type := mkWorld {
  entropy : nat -> nat;
  consumed : nat;
  browser : list SessionEvent;
  stdout : list string
}.

(** ** The monad of function bodies

    A body runs over its function's locals [L] and the world.  The locals
    and the world survive a raised exception, as Python's do: what was
    appended to a list before the exception is still there in the
    handler. *)

Definition M (L A : Type) : Type := L -> World -> result A * L * World.

Definition ret {L A} (a : A) : M L A := fun l w => (Ok a, l, w).

Definition bind {L A B} (m : M L A) (k : A -> M L B) : M L B :=
  fun l w =>
    match m l w with
    | (Ok a, l', w') => k a l' w'
    | (Raise e, l', w') => (Raise e, l', w')
    end.

Definition raise {L A} (e : exn) : M L A := fun l w => (Raise e, l, w).

(** [try: m  except Exception as e: h e] *)
Definition try_except {L A} (m : M L A) (h : exn -> M L A) : M L A :=
  fun l w =>
    match m l w with
    | (Ok a, l', w') => (Ok a, l', w')
    | (Raise e, l', w') => h e l' w'
    end.

(** A library call whose outcome the oracle fixes. *)
Definition lift {L A} (r : result A) : M L A := fun l w => (r, l, w).

Definition get_local {L} : M L L := fun l w => (Ok l, l, w).
Definition set_local {L} (l' : L) : M L unit := fun _ w => (Ok tt, l', w).

Declare Scope py_scope.
Delimit Scope py_scope with py.
Notation "x <- m ;; k" := (bind m (fun x => k))
  (at level 61, m at next level, right associativity) : py_scope.
Notation "' p <- m ;; k" := (bind m (fun x => match x with p => k end))
  (at level 61, p pattern, m at next level, right associativity) : py_scope.
Notation "m ;; k" := (bind m (fun _ => k))
  (at level 61, right associativity) : py_scope.
Open Scope py_scope.

(** [for x in xs: body x]; a [continue] that ends an iteration is the end
    of [body]. *)
Fixpoint for_ {L A} (xs : list A) (body : A -> M L unit) : M L unit :=
  match xs with
  | [] => ret tt
  | x :: xs' => body x ;; for_ xs' body
  end.

(** A function seen from its caller: the locals are created by the call and
    dropped at return. *)
Definition Fn (A : Type) : Type := World -> result A * World.

Definition def {L A} (locals : L) (body : M L A) : Fn A :=
  fun w => let '(r, _, w') := body locals w in (r, w').

Definition call {L A} (f : Fn A) : M L A :=
  fun l w => let '(r, w') := f w in (r, l, w').

(** [print(s)] *)
Definition print {L} (s : string) : M L unit :=
  fun l w => (Ok tt, l,
              mkWorld (entropy w) (consumed w) (browser w) (stdout w ++ [s])).

(** [time.sleep(seconds)]: time is not part of the world. *)
Definition sleep {L} (seconds : nat) : M L unit := ret tt.

(** List methods on a local that is a list. *)
Definition append {T} (x : T) : M (list T) unit :=
  fun l w => (Ok tt, l ++ [x], w).
Definition extend {T} (xs : list T) : M (list T) unit :=
  fun l w => (Ok tt, l ++ xs, w).

(** [seq[i]] *)
Definition getitem {L A} (seq : list A) (i : nat) : M L A :=
  match nth_error seq i with
  | Some x => ret x
  | None => raise (IndexError "list index out of range")
  end.

(** [i % n] *)
Definition mod_ {L} (i n : nat) : M L nat :=
  match n with
  | 0 => raise (ZeroDivisionError "integer modulo by zero")
  | S _ => ret (i mod n)
  end.

(** [enumerate(xs)] *)
Definition enumerate {A} (xs : list A) : list (nat * A) :=
  combine (seq 0 (List.length xs)) xs.

(** [s[:stop]] on a string and on a list.  A Python [str] is modelled by a
    [string], character by character: [len] is [String.length] and a slice
    keeps the first [stop] characters. *)
Definition str_slice_to (stop : nat) (s : string) : string := substring 0 stop s.
Definition slice_to {A} (stop : nat) (l : list A) : list A := firstn stop l.

(** ** Records

    The dicts the scraper builds have fixed string keys; each is a record
    with one field per key. *)

Module JobRecord.
Record t : Type := mk {
  title : string;
  description : string;
  location : string;
  source : string
}.
End JobRecord.

Module ProfessionalProfile.
Record t : Type := mk {
  firstName : string;
  lastName : string;
  role : string;
  bio : string;
  skills : list string;
  experience : string;
  location : string
}.
End ProfessionalProfile.

(** ** The external libraries, as oracles *)

Module bs4.
(** A parsed element.  [get_text] is [get_text(strip=True)]; [find name
    class_] answers [None] when no descendant matches.  A [Tag] is truthy
    whatever its contents, so [if tag] tests presence only. *)
#[local] Unset Elimination Schemes.
Inductive Tag : Type := mkTag {
  get_text : string;
  find : string -> string -> result (option Tag);
  find_all : string -> string -> result (list Tag)
}.
End bs4.

Module selenium.
Definition By_CSS_SELECTOR : string := "css selector".

(** [find_element] raises [NoSuchElementException] when nothing
    matches; there is no [None] answer. *)
#[local] Unset Elimination Schemes.
Inductive WebElement : Type := mkWebElement {
  text : result string;
  find_element : string -> string -> result WebElement
}.

Record WebDriver : Type := mkWebDriver {
  get : string -> result unit;
  find_elements : string -> string -> result (list WebElement);
  quit : result unit
}.
End selenium.

(** What the outside answers: [requests_get url] is [requests.get(url,
    headers=...)] followed by [BeautifulSoup(response.content,
    'html.parser')], the parsed document or the exception either step
    raised; [Chrome options] is [webdriver.Chrome(options=options)]. *)
Record Web : Type := mkWeb {
  requests_get : string -> result bs4.Tag;
  Chrome : list string -> result selenium.WebDriver
}.

(** Starting a session and quitting it are logged in the world. *)
Definition webdriver_Chrome {L} (web : Web) (options : list string)
  : M L selenium.WebDriver :=
  fun l w =>
    match Chrome web options with
    | Ok driver =>
        (Ok driver, l,
         mkWorld (entropy w) (consumed w) (browser w ++ [SessionStarted]) (stdout w))
    | Raise e => (Raise e, l, w)
    end.

Definition driver_quit {L} (driver : selenium.WebDriver) : M L unit :=
  fun l w =>
    (selenium.quit driver, l,
     mkWorld (entropy w) (consumed w) (browser w ++ [QuitCalled]) (stdout w)).

(** ** The random module *)

(** The world after one draw. *)
Definition advance (w : World) : World :=
  mkWorld (entropy w) (S (consumed w)) (browser w) (stdout w).

(** [random._randbelow(n)]: the next raw draw, reduced below [n]. *)
Definition randbelow {L} (n : nat) : M L nat :=
  fun l w =>
    (Ok (entropy w (consumed w) mod n), l, advance w).

(** [random.choice(seq)] *)
Definition random_choice {L A} (seq : list A) : M L A :=
  match seq with
  | [] => raise (IndexError "Cannot choose from an empty sequence")
  | _ :: _ => i <- randbelow (List.length seq) ;; getitem seq i
  end.

(** [random.randint(a, b)], both ends included. *)
Definition random_randint {L} (a b : nat) : M L nat :=
  if (b <? a)%nat then raise (ValueError "empty range for randrange()")
  else i <- randbelow (b + 1 - a) ;; ret (a + i).

(** [pool[j] = y] *)
Fixpoint setitem {A} (pool : list A) (j : nat) (y : A) : list A :=
  match pool, j with
  | [], _ => []
  | _ :: pool', 0 => y :: pool'
  | x :: pool', S j' => x :: setitem pool' j' y
  end.

(** [range(k)] *)
Definition range (k : nat) : list nat := seq 0 k.

(** [random.sample(population, k)], in the branch CPython takes for a
    population of at most 21 elements: a pool is copied from the
    population, and at step [i] the element drawn among the first [n - i]
    is recorded and overwritten by the last of them.  The locals are
    [(pool, result)]; [result] is filled left to right.  (For a larger
    population CPython may instead draw indices and redraw on a
    collision; that branch is not part of this definition, which is used
    on vocabularies of at most 21 skills, and the size check that raises
    [ValueError] comes before the choice of the branch.) *)
Definition random_sample {A} (population : list A) (k : nat) : Fn (list A) :=
  def (population, @nil A) (
    let n := List.length population in
    if (n <? k)%nat
    then raise (ValueError "Sample larger than population or is negative")
    else
      for_ (range k) (fun i =>
        j <- randbelow (n - i) ;;
        '(pool, result) <- get_local ;;
        x <- getitem pool j ;;
        y <- getitem pool (n - i - 1) ;;
        set_local (setitem pool j y, result ++ [x])) ;;
      '(_, result) <- get_local ;;
      ret result).

(** ** The scraper *)

Record FilmIndustryDataScraper : Type := mkScraper {
  chrome_options : list string;
  film_locations : list (string * list string);
  film_categories : list string;
  film_skills : list string
}.

(** [__init__]; the dict [film_locations] keeps its insertion order. *)
Definition init : FilmIndustryDataScraper := {|
  chrome_options :=
    ["--headless"; "--no-sandbox"; "--disable-dev-shm-usage";
     "--user-agent=Mozilla/5.0 (Windows NT 10.0; Win64; x64) AppleWebKit/537.36"];
  film_locations :=
    [("United States", ["Los Angeles"; "New York"; "Atlanta"; "Chicago"; "Austin"; "San Francisco"]);
     ("India", ["Mumbai"; "Chennai"; "Hyderabad"; "Kolkata"; "Pune"; "Bangalore"]);
     ("United Kingdom", ["London"; "Manchester"; "Glasgow"; "Cardiff"]);
     ("France", ["Paris"; "Cannes"; "Lyon"]);
     ("Germany", ["Berlin"; "Munich"; "Hamburg"]);
     ("Italy", ["Rome"; "Milan"; "Venice"]);
     ("Spain", ["Madrid"; "Barcelona"; "Valencia"]);
     ("Canada", ["Toronto"; "Vancouver"; "Montreal"])];
  film_categories :=
    ["Director"; "Producer"; "Cinematographer"; "Editor"; "Sound Designer";
     "Production Designer"; "Costume Designer"; "Makeup Artist"; "Visual Effects";
     "Screenwriter"; "Casting Director"; "Location Manager"; "Script Supervisor";
     "Gaffer"; "Grip"; "Boom Operator"; "Assistant Director"; "Stunt Coordinator"];
  film_skills :=
    ["Final Cut Pro"; "Avid Media Composer"; "Adobe Premiere Pro"; "After Effects";
     "Cinema 4D"; "Maya"; "Blender"; "Pro Tools"; "Logic Pro"; "RED Camera";
     "ARRI Alexa"; "Steadicam"; "Drone Operation"; "Color Grading"; "Foley";
     "Motion Graphics"; "Storyboarding"; "Script Analysis"; "Budgeting"]
|}.

(** [[city for cities in self.film_locations.values() for city in cities]] *)
Definition cities (self : FilmIndustryDataScraper) : list string :=
  flat_map snd (film_locations self).

(** The truncation every adapter applies to a description. *)
Definition description_cap : nat := 500.

(** The body of the loop of [scrape_production_hub], for one candidate. *)
Definition production_hub_job (job_element : bs4.Tag)
  : M (list JobRecord.t) unit :=
  try_except
    (title <- lift (bs4.find job_element "h3" "job-title") ;;
     description <- lift (bs4.find job_element "div" "job-description") ;;
     location <- lift (bs4.find job_element "span" "location") ;;
     match title, description with
     | Some title, Some description =>
         append {|
           JobRecord.title := bs4.get_text title;
           JobRecord.description :=
             str_slice_to description_cap (bs4.get_text description);
           JobRecord.location :=
             match location with
             | Some location => bs4.get_text location
             | None => "Remote"
             end;
           JobRecord.source := "ProductionHUB"
         |}
     | _, _ => ret tt
     end)
    (fun e => print (String.append "Error parsing job: " (str e))).

Definition scrape_production_hub (self : FilmIndustryDataScraper) (web : Web)
  : Fn (list JobRecord.t) :=
  def [] (
    try_except
      (soup <- lift (requests_get web "https://www.productionhub.com/jobs") ;;
       job_elements <- lift (bs4.find_all soup "div" "job-listing") ;;
       for_ (slice_to 20 job_elements) production_hub_job)
      (fun e => print (String.append "Error scraping ProductionHUB: " (str e))) ;;
    get_local).

(** The body of the loop of [scrape_film_jobs_com], for one candidate. *)
Definition film_jobs_com_job (job_element : selenium.WebElement)
  : M (list JobRecord.t) unit :=
  try_except
    (title_element <-
       lift (selenium.find_element job_element selenium.By_CSS_SELECTOR ".job-title") ;;
     title <- lift (selenium.text title_element) ;;
     description_element <-
       lift (selenium.find_element job_element selenium.By_CSS_SELECTOR ".job-description") ;;
     description <- lift (selenium.text description_element) ;;
     location_element <-
       lift (selenium.find_element job_element selenium.By_CSS_SELECTOR ".job-location") ;;
     location <- lift (selenium.text location_element) ;;
     append {|
       JobRecord.title := title;
       JobRecord.description := str_slice_to description_cap description;
       JobRecord.location := location;
       JobRecord.source := "FilmJobs.com"
     |})
    (fun e => print (String.append "Error parsing job: " (str e))).

Definition scrape_film_jobs_com (self : FilmIndustryDataScraper) (web : Web)
  : Fn (list JobRecord.t) :=
  def [] (
    try_except
      (driver <- webdriver_Chrome web (chrome_options self) ;;
       lift (selenium.get driver "https://www.filmjobs.com") ;;
       sleep 3 ;;
       job_elements <-
         lift (selenium.find_elements driver selenium.By_CSS_SELECTOR ".job-item") ;;
       for_ (slice_to 15 job_elements) film_jobs_com_job ;;
       driver_quit driver)
      (fun e => print (String.append "Error scraping FilmJobs.com: " (str e))) ;;
    get_local).

(** The body of the loop of [scrape_mandy_network], for one candidate. *)
Definition mandy_network_job (job_element : bs4.Tag)
  : M (list JobRecord.t) unit :=
  try_except
    (title <- lift (bs4.find job_element "h2" "job-title") ;;
     description <- lift (bs4.find job_element "div" "job-summary") ;;
     location <- lift (bs4.find job_element "span" "location") ;;
     match title, description with
     | Some title, Some description =>
         append {|
           JobRecord.title := bs4.get_text title;
           JobRecord.description :=
             str_slice_to description_cap (bs4.get_text description);
           JobRecord.location :=
             match location with
             | Some location => bs4.get_text location
             | None => "Remote"
             end;
           JobRecord.source := "Mandy Network"
         |}
     | _, _ => ret tt
     end)
    (fun e => print (String.append "Error parsing job: " (str e))).

Definition scrape_mandy_network (self : FilmIndustryDataScraper) (web : Web)
  : Fn (list JobRecord.t) :=
  def [] (
    try_except
      (soup <- lift (requests_get web "https://www.mandy.com/jobs") ;;
       job_elements <- lift (bs4.find_all soup "div" "job-card") ;;
       for_ (slice_to 10 job_elements) mandy_network_job)
      (fun e => print (String.append "Error scraping Mandy Network: " (str e))) ;;
    get_local).

(** The two lists local to [generate_fallback_jobs]. *)
Definition job_titles : list string :=
  ["Senior Video Editor - Netflix Original Series";
   "Director of Photography - Independent Film";
   "VFX Supervisor - Marvel Studios";
   "Sound Designer - A24 Horror Film";
   "Production Designer - HBO Max Series";
   "Cinematographer - Documentary Film";
   "Assistant Director - Warner Bros Feature";
   "Makeup Department Head - Disney+ Fantasy";
   "Gaffer - Apple TV+ Drama Series";
   "Script Supervisor - Amazon Prime Thriller";
   "Casting Director - Indie Romance Film";
   "Location Manager - Netflix Action Series";
   "Stunt Coordinator - Fast & Furious Franchise";
   "Costume Designer - Period Drama Film";
   "Boom Operator - Sitcom Production"].

Definition job_descriptions : list string :=
  ["Seeking experienced editor for high-profile streaming series. Must have extensive experience with Avid Media Composer and collaborative post-production workflows.";
   "Looking for skilled cinematographer to shoot independent feature film. RED camera experience and natural lighting expertise required.";
   "VFX Supervisor needed for major superhero film. Strong background in Maya, Nuke, and team management essential.";
   "Sound designer for atmospheric horror film. Experience with Pro Tools, Foley recording, and sound library management preferred.";
   "Production designer for fantasy series set in medieval times. Strong attention to historical detail and large-scale set design required.";
   "Cinematographer for environmental documentary. Drone operation license and wildlife filming experience preferred.";
   "Assistant director for big-budget action film. Strong organizational skills and high-pressure set experience required.";
   "Makeup department head for fantasy series. Prosthetics, special effects makeup, and team leadership experience needed.";
   "Gaffer for critically acclaimed drama series. LED lighting expertise and color temperature mastery required.";
   "Script supervisor for psychological thriller. Continuity experience and meticulous attention to detail essential.";
   "Casting director for romantic comedy film. Strong industry connections and talent evaluation skills required.";
   "Location manager for action series. Scouting experience and permit negotiation skills essential.";
   "Stunt coordinator for major action franchise. Safety certification and wire work experience required.";
   "Costume designer for 1940s period drama. Historical research skills and fabric knowledge essential.";
   "Boom operator for multi-camera sitcom. Live audience experience and microphone technique expertise required."].

Definition generate_fallback_jobs (self : FilmIndustryDataScraper)
  : Fn (list JobRecord.t) :=
  def [] (
    for_ (enumerate job_titles) (fun '(i, title) =>
      location <- random_choice (cities self) ;;
      index <- mod_ i (List.length job_descriptions) ;;
      description <- getitem job_descriptions index ;;
      append {|
        JobRecord.title := title;
        JobRecord.description := description;
        JobRecord.location := location;
        JobRecord.source := "Generated"
      |}) ;;
    get_local).

Definition scrape_film_jobs (self : FilmIndustryDataScraper) (web : Web)
  : Fn (list JobRecord.t) :=
  def [] (
    found <- call (scrape_production_hub self web) ;;
    extend found ;;
    found <- call (scrape_film_jobs_com self web) ;;
    extend found ;;
    found <- call (scrape_mandy_network self web) ;;
    extend found ;;
    jobs <- get_local ;;
    match jobs with
    | [] => generated <- call (generate_fallback_jobs self) ;; set_local generated
    | _ :: _ => ret tt
    end ;;
    get_local).

(** The lists local to [scrape_film_professionals] and
    [generate_film_experience]. *)
Definition first_names : list string :=
  ["Christopher"; "Jennifer"; "Michael"; "Sarah"; "David"; "Emma"; "Robert"; "Lisa";
   "James"; "Amanda"; "Daniel"; "Rachel"; "Matthew"; "Jessica"; "Andrew"; "Emily";
   "Ryan"; "Ashley"; "Kevin"; "Michelle"; "Brian"; "Nicole"; "John"; "Stephanie"].

Definition last_names : list string :=
  ["Anderson"; "Johnson"; "Williams"; "Brown"; "Jones"; "Garcia"; "Miller"; "Davis";
   "Rodriguez"; "Martinez"; "Hernandez"; "Lopez"; "Gonzalez"; "Wilson"; "Anderson";
   "Thomas"; "Taylor"; "Moore"; "Jackson"; "Martin"; "Lee"; "Perez"; "Thompson"].

Definition film_bios : list string :=
  ["Award-winning filmmaker with over 15 years of experience in documentary and narrative film production.";
   "Experienced cinematographer specializing in natural light photography and handheld camera work.";
   "Post-production specialist with expertise in color grading, sound design, and visual effects.";
   "Creative producer with a proven track record of successful independent film projects.";
   "Visual effects artist with experience in both practical effects and digital compositing.";
   "Screenwriter focused on character-driven narratives and contemporary social issues.";
   "Production designer with extensive experience in period films and television series.";
   "Sound engineer specializing in location recording and post-production audio mixing."].

(** The double-quote character, and a project name between quotes. *)
Definition dquote : string := String (Ascii false true false false false true false false) EmptyString.
Definition quoted (name : string) : string := (dquote ++ name ++ dquote)%string.

Definition experiences : list string :=
  [("Lead Editor - " ++ quoted "Midnight Stories" ++ " (2023)")%string;
   ("Director of Photography - " ++ quoted "Urban Legends" ++ " (2022)")%string;
   ("VFX Supervisor - " ++ quoted "Digital Dreams" ++ " (2023)")%string;
   ("Sound Designer - " ++ quoted "Whispers in the Dark" ++ " (2022)")%string;
   ("Production Designer - " ++ quoted "The Last Dance" ++ " (2023)")%string;
   ("Assistant Director - " ++ quoted "City Lights" ++ " TV Series (2021-2023)")%string;
   ("Makeup Artist - " ++ quoted "Fantasy Realm" ++ " (2022)")%string;
   ("Gaffer - " ++ quoted "Commercial Campaign" ++ " (2023)")%string;
   ("Script Supervisor - " ++ quoted "Detective Stories" ++ " (2022)")%string;
   ("Casting Director - " ++ quoted "Love in the City" ++ " (2023)")%string].

Definition generate_film_experience (self : FilmIndustryDataScraper) : Fn string :=
  def tt (random_choice experiences).

Definition scrape_film_professionals (self : FilmIndustryDataScraper)
  : Fn (list ProfessionalProfile.t) :=
  def [] (
    for_ (range 100) (fun i =>
      firstName <- random_choice first_names ;;
      lastName <- random_choice last_names ;;
      role <- random_choice (film_categories self) ;;
      bio <- random_choice film_bios ;;
      size <- random_randint 3 8 ;;
      skills <- call (random_sample (film_skills self) size) ;;
      experience <- call (generate_film_experience self) ;;
      location <- random_choice (cities self) ;;
      append {|
        ProfessionalProfile.firstName := firstName;
        ProfessionalProfile.lastName := lastName;
        ProfessionalProfile.role := role;
        ProfessionalProfile.bio := bio;
        ProfessionalProfile.skills := skills;
        ProfessionalProfile.experience := experience;
        ProfessionalProfile.location := location
      |}) ;;
    get_local).

(** ** Specifications

    [wp m Q l w] holds when running [m] from locals [l] and world [w] ends
    in a result, locals and world that satisfy [Q]; [wpf] is the same for a
    function seen from its caller.  Every program here terminates, so both
    are total-correctness statements. *)

Definition wp {L A} (m : M L A) (Q : result A -> L -> World -> Prop)
  (l : L) (w : World) : Prop :=
  match m l w with (r, l', w') => Q r l' w' end.

Definition wpf {A} (f : Fn A) (Q : result A -> World -> Prop) (w : World) : Prop :=
  match f w with (r, w') => Q r w' end.

(** The provenance values of a job record. *)
Definition adapter_names : list string :=
  ["ProductionHUB"; "FilmJobs.com"; "Mandy Network"].
Definition synthetic_marker : string := "Generated".

(** The invariant of a job record as the specification words it. *)
Definition job_invariant (j : JobRecord.t) : Prop :=
  JobRecord.title j <> "" /\
  JobRecord.description j <> "" /\
  String.length (JobRecord.description j) <= description_cap /\
  In (JobRecord.source j) (adapter_names ++ [synthetic_marker]).

(** What holds of every record the aggregator returns: the text of a
    scraped record may be empty, that of a synthetic one is not. *)
Definition job_wellformed (j : JobRecord.t) : Prop :=
  String.length (JobRecord.description j) <= description_cap /\
  In (JobRecord.source j) (adapter_names ++ [synthetic_marker]) /\
  (JobRecord.source j = synthetic_marker ->
   JobRecord.title j <> "" /\ JobRecord.description j <> "").

(** What an adapter named [name] promises of a record it emits. *)
Definition stamped (name : string) (j : JobRecord.t) : Prop :=
  String.length (JobRecord.description j) <= description_cap /\
  JobRecord.source j = name.

(** The description of [j] is [raw] cut at the cap. *)
Definition truncated (raw : string) (j : JobRecord.t) : Prop :=
  (description_cap < String.length raw ->
   String.length (JobRecord.description j) = description_cap) /\
  (String.length raw <= description_cap -> JobRecord.description j = raw).

(** [location] is one of the city names that [self.film_locations] lists
    under some region. *)
Definition located (self : FilmIndustryDataScraper) (location : string) : Prop :=
  exists region towns,
    In (region, towns) (film_locations self) /\ In location towns.

(** A valid profile of the scraper [self]. *)
Definition profile_valid (self : FilmIndustryDataScraper)
  (p : ProfessionalProfile.t) : Prop :=
  3 <= List.length (ProfessionalProfile.skills p) <= 8 /\
  NoDup (ProfessionalProfile.skills p) /\
  incl (ProfessionalProfile.skills p) (film_skills self) /\
  In (ProfessionalProfile.role p) (film_categories self) /\
  located self (ProfessionalProfile.location p).

(** The session of the browser adapter is released in [w]: every session
    started was followed by a call of [quit]. *)
Fixpoint released_from (open : nat) (events : list SessionEvent) : bool :=
  match events with
  | [] => Nat.eqb open 0
  | SessionStarted :: events' => released_from (S open) events'
  | QuitCalled :: events' => released_from (Nat.pred open) events'
  end.
Definition session_released (w : World) : bool := released_from 0 (browser w).

(** What one pass of an adapter's loop body does to the accumulator: it
    returns normally, leaves the browser log alone, and appends nothing or
    one record that satisfies [P]. *)
Definition collects (P : JobRecord.t -> Prop) (l : list JobRecord.t) (w : World)
  : result unit -> list JobRecord.t -> World -> Prop :=
  fun r l' w' =>
    r = Ok tt /\ browser w' = browser w /\
    (l' = l \/ exists j, l' = l ++ [j] /\ P j).

(** What an adapter named [name] with the cap [limit] hands to its caller:
    a list, never an exception. *)
Definition adapter_post (name : string) (limit : nat)
  : result (list JobRecord.t) -> World -> Prop :=
  fun r _ =>
    exists jobs, r = Ok jobs /\ List.length jobs <= limit /\
                 Forall (stamped name) jobs.

(** What ties the [i]-th title to the record generated for it. *)
Definition fallback_of (self : FilmIndustryDataScraper)
  (it : nat * string) (j : JobRecord.t) : Prop :=
  JobRecord.title j = snd it /\
  nth_error job_descriptions (fst it mod List.length job_descriptions)
    = Some (JobRecord.description j) /\
  In (JobRecord.location j) (cities self) /\
  JobRecord.source j = synthetic_marker.

(** Duplicate-freedom of a list of strings, decided. *)
Fixpoint distinct (l : list string) : bool :=
  match l with
  | [] => true
  | x :: l' => negb (existsb (String.eqb x) l') && distinct l'
  end.

(** ** Concrete sites *)

Definition world0 : World := mkWorld (fun n => n) 0 [] [].

(** An element with text and no descendants. *)
Definition leaf (text : string) : bs4.Tag :=
  bs4.mkTag text (fun _ _ => Ok None) (fun _ _ => Ok []).

(** A listing element of either requests-based site: a title, a summary
    and, when [location] is given, a location. *)
Definition listing (title description : string) (location : option string) : bs4.Tag :=
  bs4.mkTag ""
    (fun _ class_ =>
       if String.eqb class_ "job-title" then Ok (Some (leaf title))
       else if String.eqb class_ "job-description" then Ok (Some (leaf description))
       else if String.eqb class_ "job-summary" then Ok (Some (leaf description))
       else if String.eqb class_ "location" then Ok (option_map leaf location)
       else Ok None)
    (fun _ _ => Ok []).

(** A parsed page whose listing elements are [elements]. *)
Definition page (elements : list bs4.Tag) : bs4.Tag :=
  bs4.mkTag "" (fun _ _ => Ok None) (fun _ _ => Ok elements).

(** Every site is unreachable and Chrome does not start. *)
Definition web_down : Web := {|
  requests_get := fun _ => Raise (RequestException "connection refused");
  Chrome := fun _ => Raise (WebDriverException "chromedriver not found")
|}.

(** ProductionHUB serves one listing whose title and description elements
    are present and blank; nothing else answers. *)
Definition web_blank_listing : Web := {|
  requests_get := fun url =>
    if String.eqb url "https://www.productionhub.com/jobs"
    then Ok (page [listing "" "" None])
    else Raise (RequestException "connection refused");
  Chrome := fun _ => Raise (WebDriverException "chromedriver not found")
|}.

(** ProductionHUB and Mandy serve one listing each; Chrome does not start. *)
Definition web_two_sites : Web := {|
  requests_get := fun url =>
    if String.eqb url "https://www.productionhub.com/jobs"
    then Ok (page [listing "Gaffer" "Night shoot, LED rig." None])
    else Ok (page [listing "Grip" "Two weeks on location." (Some "Leeds")]);
  Chrome := fun _ => Raise (WebDriverException "chromedriver not found")
|}.

(** A browser element with text and no descendants. *)
Definition text_element (text : string) : selenium.WebElement :=
  selenium.mkWebElement (Ok text)
    (fun _ _ => Raise (NoSuchElementException "no such element")).

(** A [.job-item] with a title and a description and no [.job-location]. *)
Definition item_without_location : selenium.WebElement :=
  selenium.mkWebElement (Ok "")
    (fun _ value =>
       if String.eqb value ".job-title" then Ok (text_element "Editor")
       else if String.eqb value ".job-description"
            then Ok (text_element "Feature film, Avid.")
       else Raise (NoSuchElementException "no such element: .job-location")).

(** FilmJobs.com loads and lists that item; the other sites are down. *)
Definition web_item_without_location : Web := {|
  requests_get := fun _ => Raise (RequestException "connection refused");
  Chrome := fun _ => Ok {|
    selenium.get := fun _ => Ok tt;
    selenium.find_elements := fun _ _ => Ok [item_without_location];
    selenium.quit := Ok tt
  |}
|}.

(** A [.job-item] whose title and description elements are there and show
    no text. *)
Definition blank_item : selenium.WebElement :=
  selenium.mkWebElement (Ok "")
    (fun _ value =>
       if String.eqb value ".job-location" then Ok (text_element "Leeds")
       else Ok (text_element "")).

(** FilmJobs.com loads and lists that item; the other sites are down. *)
Definition web_blank_item : Web := {|
  requests_get := fun _ => Raise (RequestException "connection refused");
  Chrome := fun _ => Ok {|
    selenium.get := fun _ => Ok tt;
    selenium.find_elements := fun _ _ => Ok [blank_item];
    selenium.quit := Ok tt
  |}
|}.

(** A [.job-item] with a title, a description and a location. *)
Definition full_item : selenium.WebElement :=
  selenium.mkWebElement (Ok "")
    (fun _ value =>
       if String.eqb value ".job-title" then Ok (text_element "Editor")
       else if String.eqb value ".job-description"
            then Ok (text_element "Feature film, Avid.")
       else Ok (text_element "Leeds")).

(** FilmJobs.com lists an item that cannot be parsed and one that can, and
    the driver fails to quit. *)
Definition web_quit_fails : Web := {|
  requests_get := fun _ => Raise (RequestException "connection refused");
  Chrome := fun _ => Ok {|
    selenium.get := fun _ => Ok tt;
    selenium.find_elements := fun _ _ => Ok [item_without_location; full_item];
    selenium.quit := Raise (WebDriverException "session already closed")
  |}
|}.

(** Chrome starts and the page load times out. *)
Definition web_page_load_fails : Web := {|
  requests_get := fun _ => Raise (RequestException "connection refused");
  Chrome := fun _ => Ok {|
    selenium.get := fun _ => Raise (WebDriverException "timeout loading page");
    selenium.find_elements := fun _ _ => Ok [];
    selenium.quit := Ok tt
  |}
|}.

(** A description of 600 characters, and candidates that carry it. *)
Definition long_description : string :=
  string_of_list_ascii (repeat "x"%char 600).

Definition long_listing : bs4.Tag := listing "Editor" long_description None.

Definition long_item : selenium.WebElement :=
  selenium.mkWebElement (Ok "")
    (fun _ value =>
       if String.eqb value ".job-title" then Ok (text_element "Editor")
       else if String.eqb value ".job-description"
            then Ok (text_element long_description)
       else Ok (text_element "Leeds")).

(** ** The adapters, as functions of the page

    What a candidate contributes to the result of its adapter, read off the
    loop bodies: one record when the lookups answer and the title and the
    description are there, nothing otherwise. *)

Definition production_hub_records (job_element : bs4.Tag) : list JobRecord.t :=
  match bs4.find job_element "h3" "job-title",
        bs4.find job_element "div" "job-description",
        bs4.find job_element "span" "location" with
  | Ok (Some title), Ok (Some description), Ok location =>
      [ {| JobRecord.title := bs4.get_text title;
           JobRecord.description :=
             str_slice_to description_cap (bs4.get_text description);
           JobRecord.location :=
             match location with
             | Some location => bs4.get_text location
             | None => "Remote"
             end;
           JobRecord.source := "ProductionHUB" |} ]
  | _, _, _ => []
  end.

Definition mandy_network_records (job_element : bs4.Tag) : list JobRecord.t :=
  match bs4.find job_element "h2" "job-title",
        bs4.find job_element "div" "job-summary",
        bs4.find job_element "span" "location" with
  | Ok (Some title), Ok (Some description), Ok location =>
      [ {| JobRecord.title := bs4.get_text title;
           JobRecord.description :=
             str_slice_to description_cap (bs4.get_text description);
           JobRecord.location :=
             match location with
             | Some location => bs4.get_text location
             | None => "Remote"
             end;
           JobRecord.source := "Mandy Network" |} ]
  | _, _, _ => []
  end.

(** [job_element.find_element(By.CSS_SELECTOR, value).text] *)
Definition element_text (job_element : selenium.WebElement) (value : string)
  : result string :=
  match selenium.find_element job_element selenium.By_CSS_SELECTOR value with
  | Ok element => selenium.text element
  | Raise e => Raise e
  end.

Definition film_jobs_com_records (job_element : selenium.WebElement)
  : list JobRecord.t :=
  match element_text job_element ".job-title",
        element_text job_element ".job-description",
        element_text job_element ".job-location" with
  | Ok title, Ok description, Ok location =>
      [ {| JobRecord.title := title;
           JobRecord.description := str_slice_to description_cap description;
           JobRecord.location := location;
           JobRecord.source := "FilmJobs.com" |} ]
  | _, _, _ => []
  end.

(** The page loads and its items are listed. *)
Definition page_listed (driver : selenium.WebDriver) : bool :=
  match selenium.get driver "https://www.filmjobs.com",
        selenium.find_elements driver selenium.By_CSS_SELECTOR ".job-item" with
  | Ok _, Ok _ => true
  | _, _ => false
  end.

(** [w'] differs from [w] by lines printed at most. *)
Definition quiet (w w' : World) : Prop :=
  entropy w' = entropy w /\ consumed w' = consumed w /\ browser w' = browser w /\
  exists lines, stdout w' = stdout w ++ lines.

(** What one pass of a loop body does, exactly: it returns normally,
    appends [records] and prints at most. *)
Definition emits (records : list JobRecord.t) (l : list JobRecord.t) (w : World)
  : result unit -> list JobRecord.t -> World -> Prop :=
  fun r l' w' => r = Ok tt /\ l' = l ++ records /\ quiet w w'.

(** [w'] is [w] after [draws] draws and nothing else. *)
Definition drew (draws : nat) (w w' : World) : Prop :=
  entropy w' = entropy w /\ consumed w' = consumed w + draws /\
  browser w' = browser w /\ stdout w' = stdout w.

(** [w] after [line] was printed. *)
Definition printed (w : World) (line : string) : World :=
  mkWorld (entropy w) (consumed w) (browser w) (stdout w ++ [line]).

(** The fields of a profile that the validity of a profile leaves out. *)
Definition profile_drawn (p : ProfessionalProfile.t) : Prop :=
  In (ProfessionalProfile.firstName p) first_names /\
  In (ProfessionalProfile.lastName p) last_names /\
  In (ProfessionalProfile.bio p) film_bios /\
  In (ProfessionalProfile.experience p) experiences.

(** A scraper with no vocabulary at all. *)
Definition bare_scraper : FilmIndustryDataScraper := {|
  chrome_options := [];
  film_locations := [];
  film_categories := [];
  film_skills := []
|}.

(** A scraper with two regions, two categories and eight skills. *)
Definition small_scraper : FilmIndustryDataScraper := {|
  chrome_options := [];
  film_locations := [("Ireland", ["Dublin"; "Cork"]); ("Norway", ["Oslo"])];
  film_categories := ["Editor"; "Gaffer"];
  film_skills :=
    ["Maya"; "Foley"; "Blender"; "Pro Tools"; "Steadicam"; "Budgeting";
     "Storyboarding"; "Color Grading"]
|}.

(** A scraper whose skills vocabulary has two entries. *)
Definition two_skill_scraper : FilmIndustryDataScraper := {|
  chrome_options := chrome_options init;
  film_locations := film_locations init;
  film_categories := film_categories init;
  film_skills := ["Maya"; "Foley"]
|}.

(** ** The export

    [save_to_json] and [run_scraper] run on a host: the world of the
    scraper, the files on disk, what opening a file for writing answers
    and the clock. *)

Module json.
(** A JSON document.  An object keeps the insertion order of the dict it
    was dumped from.  The file written by [json.dump] is modelled by the
    document it holds; its text is the library's. *)
#[local] Unset Elimination Schemes.
Inductive value : Type :=
| String (s : string)
| Array (items : list value)
| Object (members : list (string * value)).

(** [document[key]] on an object. *)
Fixpoint member (key : string) (members : list (string * value)) : option value :=
  match members with
  | [] => None
  | (k, v) :: members' => if String.eqb k key then Some v else member key members'
  end.
End json.

Definition strings (l : list string) : json.value :=
  json.Array (map json.String l).

(** The dict of a job and of a profile, as [json.dump] sees them. *)
Definition job_value (j : JobRecord.t) : json.value :=
  json.Object
    [("title", json.String (JobRecord.title j));
     ("description", json.String (JobRecord.description j));
     ("location", json.String (JobRecord.location j));
     ("source", json.String (JobRecord.source j))].

Definition professional_value (p : ProfessionalProfile.t) : json.value :=
  json.Object
    [("firstName", json.String (ProfessionalProfile.firstName p));
     ("lastName", json.String (ProfessionalProfile.lastName p));
     ("role", json.String (ProfessionalProfile.role p));
     ("bio", json.String (ProfessionalProfile.bio p));
     ("skills", strings (ProfessionalProfile.skills p));
     ("experience", json.String (ProfessionalProfile.experience p));
     ("location", json.String (ProfessionalProfile.location p))].

(** What a file holds: a document, or what is left of a file that was
    opened for writing and not written to the end (nothing, or the
    beginning of a document's text). *)
Inductive file_content : Type :=
| Document (data : json.value)
| Truncated.

(** An exception on the host: one of the scraper's world, or [OSError]. *)
Inductive host_exn : Type :=
| Exception (e : exn)
| OSError (msg : string).

(** [open_w n path] is the exception that the [n]-th [open(path, 'w')] of
    the run raises, if it raises; [write_w n path] is the exception raised
    while the file of that [open] is written and closed ([json.dump] and
    the end of the [with] block), if any; [opened] counts the calls of
    [open] so far.  [now n] is what the [n]-th call of
    [datetime.now().isoformat()] answers and [asked] counts these calls. *)
Record Host : Type := mkHost {
  world : World;
  files : string -> option file_content;
  open_w : nat -> string -> option host_exn;
  write_w : nat -> string -> option host_exn;
  opened : nat;
  now : nat -> string;
  asked : nat
}.

(** On a host a function returns or raises. *)
Inductive host_result (A : Type) : Type :=
| Returned (a : A)
| Raised (e : host_exn).
Arguments Returned {A} a.
Arguments Raised {A} e.

Definition HostFn (A : Type) : Type := Host -> host_result A * Host.

Definition host_ret {A} (a : A) : HostFn A := fun h => (Returned a, h).

Definition host_bind {A B} (m : HostFn A) (k : A -> HostFn B) : HostFn B :=
  fun h =>
    match m h with
    | (Returned a, h') => k a h'
    | (Raised e, h') => (Raised e, h')
    end.

Declare Scope host_scope.
Delimit Scope host_scope with host.
Notation "x <- m ;; k" := (host_bind m (fun x => k))
  (at level 61, m at next level, right associativity) : host_scope.
Notation "m ;; k" := (host_bind m (fun _ => k))
  (at level 61, right associativity) : host_scope.

(** The host [h] with the world [w]. *)
Definition with_world (h : Host) (w : World) : Host :=
  mkHost w (files h) (open_w h) (write_w h) (opened h) (now h) (asked h).

(** The host [h] after one more [open], with [content] in the file [path]
    when given, and the files as they were otherwise. *)
Definition after_open (h : Host) (path : string) (content : option file_content)
  : Host :=
  mkHost (world h)
    (match content with
     | Some c => fun p => if String.eqb p path then Some c else files h p
     | None => files h
     end)
    (open_w h) (write_w h) (S (opened h)) (now h) (asked h).

(** A method of the scraper, called on the host. *)
Definition in_world {A} (f : Fn A) : HostFn A :=
  fun h =>
    match f (world h) with
    | (Ok a, w') => (Returned a, with_world h w')
    | (Raise e, w') => (Raised (Exception e), with_world h w')
    end.

Definition host_print (line : string) : HostFn unit :=
  fun h => (Returned tt, with_world h (printed (world h) line)).

Definition datetime_now_isoformat : HostFn string :=
  fun h =>
    (Returned (now h (asked h)),
     mkHost (world h) (files h) (open_w h) (write_w h) (opened h) (now h)
       (S (asked h))).

(** [with open(filename, 'w', encoding='utf-8') as f: json.dump(data, f,
    indent=2, ensure_ascii=False)].  When [open] raises nothing is
    written.  Once the file is open its older content is gone: when the
    writing or the closing raises the file is left truncated, otherwise it
    holds the document. *)
Definition dump_to (filename : string) (data : json.value) : HostFn unit :=
  fun h =>
    match open_w h (opened h) filename with
    | Some e => (Raised e, after_open h filename None)
    | None =>
        match write_w h (opened h) filename with
        | Some e => (Raised e, after_open h filename (Some Truncated))
        | None => (Returned tt, after_open h filename (Some (Document data)))
        end
    end.

(** [f"{n}"] *)
Definition str_nat (n : nat) : string := NilZero.string_of_uint (Nat.to_uint n).

(** The dict [data] of [save_to_json]. *)
Definition snapshot (self : FilmIndustryDataScraper)
  (jobs : list JobRecord.t) (professionals : list ProfessionalProfile.t)
  (scraped_at : string) : json.value :=
  json.Object
    [("jobs", json.Array (map job_value jobs));
     ("professionals", json.Array (map professional_value professionals));
     ("locations",
      json.Object (map (fun '(region, towns) => (region, strings towns))
                       (film_locations self)));
     ("categories", strings (film_categories self));
     ("skills", strings (film_skills self));
     ("scraped_at", json.String scraped_at)].

(** The default of the parameter [filename]. *)
Definition default_filename : string := "film_industry_data.json".

Definition save_to_json (self : FilmIndustryDataScraper)
  (jobs : list JobRecord.t) (professionals : list ProfessionalProfile.t)
  (filename : string) : HostFn unit :=
  (scraped_at <- datetime_now_isoformat ;;
   dump_to filename (snapshot self jobs professionals scraped_at) ;;
   host_print (String.append "Data saved to " filename))%host.

Definition run_scraper (self : FilmIndustryDataScraper) (web : Web)
  : HostFn (list JobRecord.t * list ProfessionalProfile.t) :=
  (host_print "Starting film industry data scraping..." ;;
   host_print "Scraping film industry jobs..." ;;
   jobs <- in_world (scrape_film_jobs self web) ;;
   host_print (String.append "Scraped "
                 (String.append (str_nat (List.length jobs)) " jobs")) ;;
   host_print "Generating film professional profiles..." ;;
   professionals <- in_world (scrape_film_professionals self) ;;
   host_print (String.append "Generated "
                 (String.append (str_nat (List.length professionals))
                    " professional profiles")) ;;
   save_to_json self jobs professionals default_filename ;;
   host_ret (jobs, professionals))%host.

(** The world of [run_scraper] when it comes to the export: the two lists
    were produced from [w] and the first six lines printed. *)
Definition scraped (self : FilmIndustryDataScraper) (web : Web) (w : World)
  (jobs : list JobRecord.t) (professionals : list ProfessionalProfile.t)
  (w' : World) : Prop :=
  exists w1 w2,
    scrape_film_jobs self web
      (printed (printed w "Starting film industry data scraping...")
         "Scraping film industry jobs...") = (Ok jobs, w1) /\
    scrape_film_professionals self
      (printed (printed w1 (String.append "Scraped "
                              (String.append (str_nat (List.length jobs)) " jobs")))
         "Generating film professional profiles...") = (Ok professionals, w2) /\
    w' = printed w2 (String.append "Generated "
                       (String.append (str_nat (List.length professionals))
                          " professional profiles")).

(** A clock that answers a later time at each call. *)
Definition clock (n : nat) : string :=
  String.append "2024-05-01T10:00:0" (String.append (str_nat n) ".000000").

(** A host with an empty disk that can be written. *)
Definition host0 : Host := {|
  world := world0;
  files := fun _ => None;
  open_w := fun _ _ => None;
  write_w := fun _ _ => None;
  opened := 0;
  now := clock;
  asked := 0
|}.

(** The disk of a host that holds an older export. *)
Definition old_disk (path : string) : option file_content :=
  if String.eqb path default_filename then Some (Document (json.Object []))
  else None.

(** Hosts with an older export: one that can be written, one that
    refuses the opening and one whose disk is full. *)
Definition host_old_export : Host := {|
  world := world0;
  files := old_disk;
  open_w := fun _ _ => None;
  write_w := fun _ _ => None;
  opened := 0;
  now := clock;
  asked := 0
|}.


Definition host_disk_full : Host := {|
  world := world0;
  files := old_disk;
  open_w := fun _ _ => None;
  write_w := fun _ _ => Some (OSError "[Errno 28] No space left on device");
  opened := 0;
  now := clock;
  asked := 0
|}.

(** A job to export. *)
Definition gaffer_job : JobRecord.t := {|
  JobRecord.title := "Gaffer";
  JobRecord.description := "Night shoot, LED rig.";
  JobRecord.location := "Remote";
  JobRecord.source := "ProductionHUB"
|}.

(** ** Rules of the program logic *)

Section Rules.
Context {L : Type}.

Lemma wp_run {A} (m : M L A) Q l w :
  wp m Q l w -> exists r l' w', m l w = (r, l', w') /\ Q r l' w'.
Proof.
  unfold wp. destruct (m l w) as [[r l'] w']. intros H.
  exists r, l', w'. split; [reflexivity | exact H].
Qed.

Lemma wp_mono {A} (m : M L A) (Q Q' : result A -> L -> World -> Prop) l w :
  wp m Q l w -> (forall r l' w', Q r l' w' -> Q' r l' w') -> wp m Q' l w.
Proof.
  unfold wp. destruct (m l w) as [[r l'] w']. intros H HQ. apply HQ, H.
Qed.

Lemma wp_ret {A} (a : A) (Q : result A -> L -> World -> Prop) l w :
  Q (Ok a) l w -> wp (ret a) Q l w.
Proof. intros H. exact H. Qed.

Lemma wp_raise {A} e (Q : result A -> L -> World -> Prop) l w :
  Q (Raise e) l w -> wp (raise e) Q l w.
Proof. intros H. exact H. Qed.

Lemma wp_lift {A} (r : result A) (Q : result A -> L -> World -> Prop) l w :
  Q r l w -> wp (lift r) Q l w.
Proof. intros H. exact H. Qed.

Lemma wp_bind {A B} (m : M L A) (k : A -> M L B) Q l w :
  wp m (fun r l' w' =>
          match r with
          | Ok a => wp (k a) Q l' w'
          | Raise e => Q (Raise e) l' w'
          end) l w ->
  wp (bind m k) Q l w.
Proof.
  unfold wp, bind. destruct (m l w) as [[[a | e] l'] w']; intros H; exact H.
Qed.

Lemma wp_try {A} (m : M L A) (h : exn -> M L A) Q l w :
  wp m (fun r l' w' =>
          match r with
          | Ok a => Q (Ok a) l' w'
          | Raise e => wp (h e) Q l' w'
          end) l w ->
  wp (try_except m h) Q l w.
Proof.
  unfold wp, try_except. destruct (m l w) as [[[a | e] l'] w']; intros H; exact H.
Qed.

Lemma wp_get_local (Q : result L -> L -> World -> Prop) l w :
  Q (Ok l) l w -> wp get_local Q l w.
Proof. intros H. exact H. Qed.

Lemma wp_set_local (Q : result unit -> L -> World -> Prop) l0 l w :
  Q (Ok tt) l0 w -> wp (set_local l0) Q l w.
Proof. intros H. exact H. Qed.

Lemma wp_call {A} (f : Fn A) (Q : result A -> L -> World -> Prop) l w :
  wpf f (fun r w' => Q r l w') w -> wp (call f) Q l w.
Proof.
  unfold wp, wpf, call. destruct (f w) as [r w']. intros H; exact H.
Qed.

Lemma wpf_def {A} (locals : L) (body : M L A) (Q : result A -> World -> Prop) w :
  wp body (fun r _ w' => Q r w') locals w -> wpf (def locals body) Q w.
Proof.
  unfold wp, wpf, def. destruct (body locals w) as [[r l'] w']. intros H; exact H.
Qed.

(** The loop rule: [I done] is the invariant after the candidates [done]
    were processed. *)
Lemma wp_for {A} (body : A -> M L unit) (I : list A -> L -> World -> Prop) xs :
  (forall done x rest l w,
      xs = done ++ x :: rest -> I done l w ->
      wp (body x) (fun r l' w' => r = Ok tt /\ I (done ++ [x]) l' w') l w) ->
  forall l w,
    I [] l w ->
    wp (for_ xs body) (fun r l' w' => r = Ok tt /\ I xs l' w') l w.
Proof.
  intros Hbody.
  assert (Hgen : forall rest done l w,
             xs = done ++ rest -> I done l w ->
             wp (for_ rest body) (fun r l' w' => r = Ok tt /\ I xs l' w') l w).
  { induction rest as [| x rest IH]; intros done l w Hxs HI.
    - rewrite app_nil_r in Hxs. subst done. simpl. apply wp_ret. auto.
    - simpl. apply wp_bind.
      eapply wp_mono; [apply (Hbody done x rest l w Hxs HI) |].
      intros r l' w' [-> HI']. apply (IH (done ++ [x])); [| exact HI'].
      rewrite <- app_assoc. exact Hxs. }
  intros l w HI. apply (Hgen xs []); [reflexivity | exact HI].
Qed.
End Rules.

Lemma wpf_run {A} (f : Fn A) Q w :
  wpf f Q w -> exists r w', f w = (r, w') /\ Q r w'.
Proof.
  unfold wpf. destruct (f w) as [r w']. intros H.
  exists r, w'. split; [reflexivity | exact H].
Qed.

Lemma wpf_mono {A} (f : Fn A) (Q Q' : result A -> World -> Prop) w :
  wpf f Q w -> (forall r w', Q r w' -> Q' r w') -> wpf f Q' w.
Proof.
  unfold wpf. destruct (f w) as [r w']. intros H HQ. apply HQ, H.
Qed.

(** ** Slices *)

Lemma str_slice_to_length_le stop s :
  String.length (str_slice_to stop s) <= stop.
Proof.
  unfold str_slice_to. revert s.
  induction stop as [| stop IH]; intros [| c s]; simpl; try lia.
  specialize (IH s). lia.
Qed.

Lemma str_slice_to_short stop s :
  String.length s <= stop -> str_slice_to stop s = s.
Proof.
  unfold str_slice_to. revert s.
  induction stop as [| stop IH]; intros [| c s]; simpl; intros H;
    try reflexivity; try lia.
  f_equal. apply IH. lia.
Qed.

Lemma str_slice_to_long stop s :
  stop < String.length s -> String.length (str_slice_to stop s) = stop.
Proof.
  unfold str_slice_to. revert s.
  induction stop as [| stop IH]; intros [| c s]; simpl; intros H;
    try reflexivity; try lia.
  f_equal. apply IH. lia.
Qed.

Lemma str_slice_to_truncated raw j :
  JobRecord.description j = str_slice_to description_cap raw -> truncated raw j.
Proof.
  intros Hj. unfold truncated. rewrite Hj. split; intros H.
  - apply str_slice_to_long, H.
  - apply str_slice_to_short, H.
Qed.

Lemma slice_to_length {A} stop (l : list A) :
  List.length (slice_to stop l) <= stop.
Proof. unfold slice_to. rewrite length_firstn. lia. Qed.

(** ** The adapters, one candidate at a time *)

Ltac run_body :=
  unfold wp, collects, try_except, bind, lift, append, print, ret; simpl.

Lemma production_hub_job_collects job_element l w :
  wp (production_hub_job job_element) (collects (stamped "ProductionHUB") l w) l w.
Proof.
  unfold production_hub_job. run_body.
  destruct (bs4.find job_element "h3" "job-title") as [[t |] | e]; simpl;
    destruct (bs4.find job_element "div" "job-description") as [[d |] | e']; simpl;
    destruct (bs4.find job_element "span" "location") as [[loc |] | e'']; simpl;
    repeat split; auto;
    right; eexists; (split; [reflexivity |]); split; simpl;
    auto using str_slice_to_length_le.
Qed.

Lemma mandy_network_job_collects job_element l w :
  wp (mandy_network_job job_element) (collects (stamped "Mandy Network") l w) l w.
Proof.
  unfold mandy_network_job. run_body.
  destruct (bs4.find job_element "h2" "job-title") as [[t |] | e]; simpl;
    destruct (bs4.find job_element "div" "job-summary") as [[d |] | e']; simpl;
    destruct (bs4.find job_element "span" "location") as [[loc |] | e'']; simpl;
    repeat split; auto;
    right; eexists; (split; [reflexivity |]); split; simpl;
    auto using str_slice_to_length_le.
Qed.

Lemma film_jobs_com_job_collects job_element l w :
  wp (film_jobs_com_job job_element) (collects (stamped "FilmJobs.com") l w) l w.
Proof.
  unfold film_jobs_com_job. run_body.
  destruct (selenium.find_element job_element selenium.By_CSS_SELECTOR ".job-title")
    as [te | e]; simpl; [| repeat split; auto].
  destruct (selenium.text te) as [t | e]; simpl; [| repeat split; auto].
  destruct (selenium.find_element job_element selenium.By_CSS_SELECTOR ".job-description")
    as [de | e]; simpl; [| repeat split; auto].
  destruct (selenium.text de) as [d | e]; simpl; [| repeat split; auto].
  destruct (selenium.find_element job_element selenium.By_CSS_SELECTOR ".job-location")
    as [le | e]; simpl; [| repeat split; auto].
  destruct (selenium.text le) as [loc | e]; simpl; [| repeat split; auto].
  repeat split; auto.
  right; eexists; (split; [reflexivity |]); split; simpl;
    auto using str_slice_to_length_le.
Qed.

(** A loop whose body collects: the accumulator grows by at most one
    record per candidate, in order, and every new record satisfies [P]. *)
Lemma for_collects {A} (body : A -> M (list JobRecord.t) unit) P xs :
  (forall x l w, wp (body x) (collects P l w) l w) ->
  forall l w,
    wp (for_ xs body)
       (fun r l' w' =>
          r = Ok tt /\ browser w' = browser w /\
          exists js, l' = l ++ js /\ List.length js <= List.length xs /\ Forall P js)
       l w.
Proof.
  intros Hbody l w.
  eapply wp_mono.
  - apply (wp_for body
             (fun done l' w' =>
                browser w' = browser w /\
                exists js, l' = l ++ js /\
                           List.length js <= List.length done /\ Forall P js)).
    + intros done x rest l1 w1 _ (Hb & js & -> & Hlen & HP).
      eapply wp_mono; [apply Hbody |].
      intros r l' w' (-> & Hb' & Hl'). split; [reflexivity |].
      split; [congruence |].
      rewrite length_app; simpl.
      destruct Hl' as [-> | (j & -> & Hj)].
      * exists js. repeat split; auto. lia.
      * exists (js ++ [j]). rewrite app_assoc. repeat split; auto.
        -- rewrite length_app; simpl. lia.
        -- apply Forall_app. auto.
    + split; [reflexivity |]. exists []. rewrite app_nil_r. auto.
  - intros r l' w' (Hr & Hb & Hjs). auto.
Qed.

(** ** The adapters *)

Ltac after_loop Hlen :=
  let r := fresh "r" in let l' := fresh "l" in let w' := fresh "w" in
  let js := fresh "js" in let HP := fresh "HP" in
  intros r l' w' (-> & _ & js & -> & Hlen & HP); simpl.

Lemma scrape_production_hub_spec self web w :
  wpf (scrape_production_hub self web) (adapter_post "ProductionHUB" 20) w.
Proof.
  unfold scrape_production_hub, adapter_post.
  apply wpf_def, wp_bind, wp_try, wp_bind, wp_lift.
  destruct (requests_get web _) as [soup | e].
  - apply wp_bind, wp_lift.
    destruct (bs4.find_all soup _ _) as [job_elements | e].
    + eapply wp_mono; [apply for_collects, production_hub_job_collects |].
      after_loop Hlen. exists js. repeat split; auto.
      pose proof (slice_to_length 20 job_elements). lia.
    + exists []. simpl. repeat split; auto. lia.
  - exists []. simpl. repeat split; auto. lia.
Qed.

Lemma scrape_mandy_network_spec self web w :
  wpf (scrape_mandy_network self web) (adapter_post "Mandy Network" 10) w.
Proof.
  unfold scrape_mandy_network, adapter_post.
  apply wpf_def, wp_bind, wp_try, wp_bind, wp_lift.
  destruct (requests_get web _) as [soup | e].
  - apply wp_bind, wp_lift.
    destruct (bs4.find_all soup _ _) as [job_elements | e].
    + eapply wp_mono; [apply for_collects, mandy_network_job_collects |].
      after_loop Hlen. exists js. repeat split; auto.
      pose proof (slice_to_length 10 job_elements). lia.
    + exists []. simpl. repeat split; auto. lia.
  - exists []. simpl. repeat split; auto. lia.
Qed.

Lemma scrape_film_jobs_com_spec self web w :
  wpf (scrape_film_jobs_com self web) (adapter_post "FilmJobs.com" 15) w.
Proof.
  unfold scrape_film_jobs_com, adapter_post.
  apply wpf_def, wp_bind, wp_try, wp_bind.
  unfold wp at 1, webdriver_Chrome.
  destruct (Chrome web _) as [driver | e].
  2:{ exists []. simpl. repeat split; auto. lia. }
  apply wp_bind, wp_lift.
  destruct (selenium.get driver _) as [[] | e].
  2:{ exists []. simpl. repeat split; auto. lia. }
  apply wp_bind, wp_ret, wp_bind, wp_lift.
  destruct (selenium.find_elements driver _ _) as [job_elements | e].
  2:{ exists []. simpl. repeat split; auto. lia. }
  apply wp_bind.
  eapply wp_mono; [apply for_collects, film_jobs_com_job_collects |].
  after_loop Hlen.
  unfold wp, driver_quit.
  destruct (selenium.quit driver) as [[] | e]; simpl;
    exists js; repeat split; auto;
    pose proof (slice_to_length 15 job_elements); lia.
Qed.

(** An adapter always returns a list. *)
Lemma adapter_returns {name limit} {f : Fn (list JobRecord.t)} {w} :
  wpf f (adapter_post name limit) w ->
  exists jobs w',
    f w = (Ok jobs, w') /\ List.length jobs <= limit /\ Forall (stamped name) jobs.
Proof.
  intros H. apply wpf_run in H.
  destruct H as (r & w' & Hrun & jobs & -> & Hlen & HP).
  exists jobs, w'. auto.
Qed.

(** ** The random module *)

Section Random.
Context {L : Type}.

Lemma wp_randbelow n (Q : result nat -> L -> World -> Prop) l w :
  0 < n ->
  (forall i, i < n -> Q (Ok i) l (advance w)) ->
  wp (randbelow n) Q l w.
Proof.
  intros Hn HQ. unfold wp, randbelow. apply HQ.
  apply Nat.mod_upper_bound. lia.
Qed.

Lemma wp_getitem {A} (seq : list A) i x (Q : result A -> L -> World -> Prop) l w :
  nth_error seq i = Some x -> Q (Ok x) l w -> wp (getitem seq i) Q l w.
Proof. intros Hx HQ. unfold getitem. rewrite Hx. exact HQ. Qed.

Lemma wp_mod_ i n (Q : result nat -> L -> World -> Prop) l w :
  0 < n -> Q (Ok (i mod n)) l w -> wp (mod_ i n) Q l w.
Proof. intros Hn HQ. unfold mod_. destruct n; [lia | exact HQ]. Qed.

Lemma wp_random_choice {A} (seq : list A) (Q : result A -> L -> World -> Prop) l w :
  seq <> [] ->
  (forall x, In x seq -> Q (Ok x) l (advance w)) ->
  wp (random_choice seq) Q l w.
Proof.
  intros Hne HQ. unfold random_choice.
  destruct seq as [| a seq']; [congruence |].
  apply wp_bind, wp_randbelow; [simpl; lia |].
  intros i Hi.
  destruct (nth_error (a :: seq') i) as [x |] eqn:Hx.
  - eapply wp_getitem; [exact Hx |]. apply HQ. eapply nth_error_In, Hx.
  - apply nth_error_None in Hx. lia.
Qed.

Lemma wp_random_randint a b (Q : result nat -> L -> World -> Prop) l w :
  a <= b ->
  (forall n, a <= n <= b -> Q (Ok n) l (advance w)) ->
  wp (random_randint a b) Q l w.
Proof.
  intros Hab HQ. unfold random_randint.
  destruct (Nat.ltb_spec b a) as [Hlt | _]; [lia |].
  apply wp_bind, wp_randbelow; [lia |].
  intros i Hi. apply wp_ret, HQ. lia.
Qed.
End Random.

(** *** Sampling without replacement *)

Lemma setitem_length {A} (pool : list A) j y :
  List.length (setitem pool j y) = List.length pool.
Proof.
  revert j. induction pool as [| a pool IH]; intros [| j]; simpl; auto.
Qed.

Lemma firstn_snoc {A} (pool : list A) m y :
  nth_error pool m = Some y -> firstn (S m) pool = firstn m pool ++ [y].
Proof.
  revert m. induction pool as [| a pool IH]; intros [| m]; simpl; intros H;
    try discriminate.
  - congruence.
  - f_equal. apply IH, H.
Qed.

(** One step of the pool: the element drawn at [j] leaves the live prefix,
    whose last element takes its place. *)
Lemma pool_step {A} (pool : list A) m j x y :
  j <= m ->
  nth_error pool j = Some x ->
  nth_error pool m = Some y ->
  Permutation (firstn m (setitem pool j y) ++ [x]) (firstn (S m) pool).
Proof.
  revert m j. induction pool as [| a pool IH]; intros m j Hjm Hx Hy.
  - destruct j; discriminate.
  - destruct j as [| j], m as [| m]; simpl in *; try lia.
    + injection Hx as ->. reflexivity.
    + injection Hx as ->.
      assert (Hsn := firstn_snoc pool m y Hy).
      destruct pool as [| b pool']; [destruct m; discriminate |].
      simpl in Hsn. rewrite Hsn.
      rewrite !app_comm_cons.
      etransitivity; [apply Permutation_app_comm |]. simpl.
      apply perm_skip, Permutation_cons_append.
    + apply perm_skip. apply (IH m j); [lia | exact Hx | exact Hy].
Qed.

Lemma range_split k done i rest :
  range k = done ++ i :: rest -> i = List.length done /\ i < k.
Proof.
  unfold range. intros H.
  assert (Hlen : List.length (seq 0 k) = List.length done + S (List.length rest)).
  { rewrite H, length_app. reflexivity. }
  rewrite length_seq in Hlen.
  assert (Hnth : nth (List.length done) (seq 0 k) 0 = i).
  { rewrite H, app_nth2, Nat.sub_diag by lia. reflexivity. }
  rewrite seq_nth in Hnth by lia. lia.
Qed.

(** A sample of size [k <= len(population)] is returned, has [k]
    elements, and is duplicate-free and drawn from the population when the
    population has no duplicates. *)
Lemma random_sample_spec {A} (population : list A) k w :
  k <= List.length population ->
  NoDup population ->
  wpf (random_sample population k)
      (fun r _ => exists sample,
           r = Ok sample /\ List.length sample = k /\
           NoDup sample /\ incl sample population) w.
Proof.
  intros Hk Hnd. unfold random_sample.
  apply wpf_def.
  destruct (Nat.ltb_spec (List.length population) k) as [Hlt | _]; [lia |].
  set (n := List.length population).
  apply wp_bind.
  eapply wp_mono.
  - apply (wp_for _
             (fun done (l : list A * list A) _ =>
                List.length (fst l) = n /\
                List.length (snd l) = List.length done /\
                Permutation (firstn (n - List.length done) (fst l) ++ snd l)
                            population)).
    + intros done i rest [pool result] w1 Hsplit (Hpool & Hres & Hperm).
      apply range_split in Hsplit. destruct Hsplit as [-> Hi].
      simpl in Hpool, Hres, Hperm.
      apply wp_bind, wp_randbelow; [lia |].
      intros j Hj. apply wp_bind, wp_get_local.
      destruct (nth_error pool j) as [x |] eqn:Hx;
        [| apply nth_error_None in Hx; lia].
      destruct (nth_error pool (n - List.length done - 1)) as [y |] eqn:Hy;
        [| apply nth_error_None in Hy; lia].
      apply wp_bind. eapply wp_getitem; [exact Hx |].
      apply wp_bind. eapply wp_getitem; [exact Hy |].
      apply wp_set_local. split; [reflexivity |]. simpl.
      rewrite setitem_length, !length_app. simpl.
      repeat split; [exact Hpool | lia |].
      replace (n - (List.length done + 1)) with (n - List.length done - 1) by lia.
      etransitivity; [| exact Hperm].
      etransitivity;
        [apply Permutation_app_head, Permutation_app_comm |].
      rewrite app_assoc. apply Permutation_app_tail.
      replace (n - List.length done) with (S (n - List.length done - 1)) at 2 by lia.
      apply pool_step; [lia | exact Hx | exact Hy].
    + simpl. repeat split; auto.
      rewrite Nat.sub_0_r, app_nil_r. subst n. rewrite firstn_all. reflexivity.
  - intros r [pool result] w1 (-> & Hpool & Hres & Hperm).
    simpl in Hres, Hperm.
    apply wp_bind, wp_get_local, wp_ret.
    exists result. split; [reflexivity |].
    unfold range in Hres. rewrite length_seq in Hres.
    assert (Hnd' : NoDup (firstn (n - List.length (range k)) pool ++ result)).
    { eapply Permutation_NoDup; [symmetry; exact Hperm | exact Hnd]. }
    repeat split; [exact Hres | |].
    + eapply NoDup_app_remove_l, Hnd'.
    + intros x Hx. eapply Permutation_in; [exact Hperm |].
      apply in_or_app. right. exact Hx.
Qed.

(** ** The synthetic generators *)

(** The flattened list holds the city names of the regions, and nothing
    else. *)
Lemma cities_located self location :
  In location (cities self) <-> located self location.
Proof.
  unfold cities, located. rewrite in_flat_map. split.
  - intros ([region towns] & Hin & Htown). exists region, towns. auto.
  - intros (region & towns & Hin & Htown). exists (region, towns). auto.
Qed.

(** The flattened list of the scraper as constructed: the 31 city names,
    region by region. *)
Lemma cities_init :
  cities init =
    ["Los Angeles"; "New York"; "Atlanta"; "Chicago"; "Austin"; "San Francisco";
     "Mumbai"; "Chennai"; "Hyderabad"; "Kolkata"; "Pune"; "Bangalore";
     "London"; "Manchester"; "Glasgow"; "Cardiff";
     "Paris"; "Cannes"; "Lyon";
     "Berlin"; "Munich"; "Hamburg";
     "Rome"; "Milan"; "Venice";
     "Madrid"; "Barcelona"; "Valencia";
     "Toronto"; "Vancouver"; "Montreal"].
Proof. reflexivity. Qed.

Lemma generate_fallback_jobs_spec self w :
  cities self <> [] ->
  wpf (generate_fallback_jobs self)
      (fun r _ => exists jobs,
           r = Ok jobs /\ Forall2 (fallback_of self) (enumerate job_titles) jobs) w.
Proof.
  intros Hcities. unfold generate_fallback_jobs.
  apply wpf_def, wp_bind.
  eapply wp_mono.
  - apply (wp_for _ (fun done l _ => Forall2 (fallback_of self) done l)).
    + intros done [i title] rest l w1 _ HI.
      apply wp_bind, wp_random_choice; [exact Hcities |].
      intros location Hloc.
      apply wp_bind, wp_mod_; [simpl; lia |].
      destruct (nth_error job_descriptions (i mod List.length job_descriptions))
        as [description |] eqn:Hd.
      2:{ apply nth_error_None in Hd.
          pose proof (Nat.mod_upper_bound i (List.length job_descriptions)).
          simpl in *. lia. }
      apply wp_bind. eapply wp_getitem; [exact Hd |].
      unfold wp, append. split; [reflexivity |].
      apply Forall2_app; [exact HI |].
      constructor; [| constructor].
      unfold fallback_of; simpl. auto.
    + constructor.
  - intros r l w1 [-> HI]. apply wp_get_local. exists l. auto.
Qed.

Lemma fallback_of_fields self its jobs :
  Forall2 (fallback_of self) its jobs ->
  map JobRecord.title jobs = map snd its /\
  map Some (map JobRecord.description jobs)
    = map (fun it => nth_error job_descriptions
                       (fst it mod List.length job_descriptions)) its /\
  Forall (fun j => In (JobRecord.location j) (cities self) /\
                   JobRecord.source j = synthetic_marker) jobs.
Proof.
  induction 1 as [| it j its jobs (Ht & Hd & Hl & Hs) _ (IHt & IHd & IHs)];
    cbn [map].
  - auto.
  - rewrite Ht, Hd, IHt, IHd. auto.
Qed.

Lemma map_Some_inj {A} (l l' : list A) : map Some l = map Some l' -> l = l'.
Proof.
  revert l'. induction l as [| a l IH]; intros [| a' l']; simpl; intros H;
    try discriminate; [reflexivity |].
  injection H as -> H. f_equal. apply IH, H.
Qed.

Lemma distinct_NoDup l : distinct l = true -> NoDup l.
Proof.
  induction l as [| x l IH]; simpl; intros H; constructor.
  - apply andb_true_iff in H. destruct H as [H _].
    intros Hin. apply negb_true_iff in H.
    assert (Hex : existsb (String.eqb x) l = true).
    { apply existsb_exists. exists x. split; [exact Hin | apply String.eqb_refl]. }
    congruence.
  - apply IH. apply andb_true_iff in H. apply H.
Qed.

Lemma scrape_film_professionals_spec w :
  wpf (scrape_film_professionals init)
      (fun r _ => exists professionals,
           r = Ok professionals /\ List.length professionals = 100 /\
           Forall (profile_valid init) professionals) w.
Proof.
  unfold scrape_film_professionals.
  apply wpf_def, wp_bind.
  eapply wp_mono.
  - apply (wp_for _ (fun done l _ =>
                       List.length l = List.length done /\
                       Forall (profile_valid init) l)).
    + intros done i rest l w1 _ (Hlen & Hvalid).
      apply wp_bind, wp_random_choice; [discriminate |]. intros firstName _.
      apply wp_bind, wp_random_choice; [discriminate |]. intros lastName _.
      apply wp_bind, wp_random_choice; [discriminate |]. intros role Hrole.
      apply wp_bind, wp_random_choice; [discriminate |]. intros bio _.
      apply wp_bind, wp_random_randint; [lia |]. intros size Hsize.
      apply wp_bind, wp_call.
      eapply wpf_mono.
      { apply random_sample_spec; [simpl; lia |].
        apply distinct_NoDup. reflexivity. }
      intros r w2 (skills & -> & Hk & Hnd & Hincl).
      apply wp_bind, wp_call. unfold generate_film_experience.
      apply wpf_def, wp_random_choice; [discriminate |]. intros experience _.
      apply wp_bind, wp_random_choice; [discriminate |]. intros location Hloc.
      unfold wp, append. split; [reflexivity |].
      rewrite !length_app. simpl. split; [lia |].
      apply Forall_app. split; [exact Hvalid |].
      constructor; [| constructor].
      unfold profile_valid; simpl ProfessionalProfile.skills;
        simpl ProfessionalProfile.role; simpl ProfessionalProfile.location.
      apply cities_located in Hloc.
      repeat split; try lia; assumption.
    + simpl. auto.
  - intros r l w1 (-> & Hlen & Hvalid). apply wp_get_local.
    exists l. unfold range in Hlen. rewrite length_seq in Hlen. auto.
Qed.

(** ** The aggregator *)

(** The aggregator runs the three adapters in order; what it returns is set
    by what they returned. *)
Lemma scrape_film_jobs_run self web w j1 w1 j2 w2 j3 w3 :
  scrape_production_hub self web w = (Ok j1, w1) ->
  scrape_film_jobs_com self web w1 = (Ok j2, w2) ->
  scrape_mandy_network self web w2 = (Ok j3, w3) ->
  scrape_film_jobs self web w =
    match j1 ++ j2 ++ j3 with
    | [] => generate_fallback_jobs self w3
    | _ :: _ => (Ok (j1 ++ j2 ++ j3), w3)
    end.
Proof.
  intros H1 H2 H3.
  unfold scrape_film_jobs, def, bind, call, extend, get_local, set_local, ret.
  rewrite H1, H2, H3. simpl. rewrite <- app_assoc.
  destruct (j1 ++ j2 ++ j3) as [| j jobs]; [| reflexivity].
  destruct (generate_fallback_jobs self w3) as [[generated | e] w4]; reflexivity.
Qed.

(** Whatever the sites answer, the three adapters return one after the
    other. *)
Lemma adapters_run self web w :
  exists j1 w1 j2 w2 j3 w3,
    scrape_production_hub self web w = (Ok j1, w1) /\
    scrape_film_jobs_com self web w1 = (Ok j2, w2) /\
    scrape_mandy_network self web w2 = (Ok j3, w3) /\
    (List.length j1 <= 20 /\ Forall (stamped "ProductionHUB") j1) /\
    (List.length j2 <= 15 /\ Forall (stamped "FilmJobs.com") j2) /\
    (List.length j3 <= 10 /\ Forall (stamped "Mandy Network") j3).
Proof.
  destruct (adapter_returns (scrape_production_hub_spec self web w))
    as (j1 & w1 & H1 & P1).
  destruct (adapter_returns (scrape_film_jobs_com_spec self web w1))
    as (j2 & w2 & H2 & P2).
  destruct (adapter_returns (scrape_mandy_network_spec self web w2))
    as (j3 & w3 & H3 & P3).
  exists j1, w1, j2, w2, j3, w3. tauto.
Qed.

Lemma init_cities_nonempty : cities init <> [].
Proof. discriminate. Qed.

(** The synthetic generator returns, whatever the random source. *)
Lemma generate_fallback_jobs_returns w :
  exists jobs w',
    generate_fallback_jobs init w = (Ok jobs, w') /\
    map JobRecord.title jobs = job_titles /\
    map JobRecord.description jobs = job_descriptions /\
    Forall (fun j => In (JobRecord.location j) (cities init) /\
                     JobRecord.source j = synthetic_marker) jobs.
Proof.
  destruct (wpf_run _ _ _ (generate_fallback_jobs_spec init w init_cities_nonempty))
    as (r & w' & Hrun & jobs & -> & Hrel).
  apply fallback_of_fields in Hrel. destruct Hrel as (Ht & Hd & Hs).
  exists jobs, w'. repeat split; [exact Hrun | exact Ht | | exact Hs].
  apply map_Some_inj. rewrite Hd. reflexivity.
Qed.

Lemma stamped_wellformed name j :
  In name adapter_names -> stamped name j -> job_wellformed j.
Proof.
  intros Hname [Hlen Hsrc]. unfold job_wellformed. rewrite Hsrc.
  split; [exact Hlen |]. split; [apply in_or_app; auto |].
  intros Hgen. exfalso. rewrite Hgen in Hname. simpl in Hname.
  unfold synthetic_marker in Hname. intuition discriminate.
Qed.

Lemma stamped_not_synthetic name j :
  In name adapter_names -> stamped name j -> JobRecord.source j <> synthetic_marker.
Proof.
  intros Hname [_ Hsrc] Hgen. rewrite Hsrc in Hgen. rewrite Hgen in Hname.
  simpl in Hname. unfold synthetic_marker in Hname. intuition discriminate.
Qed.

Lemma in_map_nonempty (f : JobRecord.t -> string) (texts : list string) jobs j :
  map f jobs = texts -> forallb (fun s => negb (String.eqb s "")) texts = true ->
  In j jobs -> f j <> "".
Proof.
  intros Hmap Hall Hin Hnil.
  rewrite forallb_forall in Hall.
  specialize (Hall (f j)). rewrite Hnil in Hall.
  assert (Hin' : In "" texts).
  { rewrite <- Hmap, <- Hnil. apply in_map, Hin. }
  specialize (Hall Hin'). discriminate.
Qed.

Lemma fallback_job_wellformed jobs j :
  map JobRecord.title jobs = job_titles ->
  map JobRecord.description jobs = job_descriptions ->
  JobRecord.source j = synthetic_marker ->
  In j jobs -> job_wellformed j.
Proof.
  intros Ht Hd Hs Hin. unfold job_wellformed.
  split; [| split].
  - assert (Hall : forallb (fun s => Nat.leb (String.length s) description_cap)
                     job_descriptions = true) by reflexivity.
    rewrite forallb_forall in Hall. apply Nat.leb_le, Hall.
    rewrite <- Hd. apply in_map, Hin.
  - rewrite Hs. apply in_or_app. right. left. reflexivity.
  - intros _. split.
    + apply (in_map_nonempty _ _ _ _ Ht); [reflexivity | exact Hin].
    + apply (in_map_nonempty _ _ _ _ Hd); [reflexivity | exact Hin].
Qed.

(** ** The claims *)

(** C1, as stated, fails: when FilmJobs.com lists an item whose title and
    description elements are there and show no text, the aggregator returns
    a record whose title and description are the empty string, against the
    invariant that both are non-empty. *)
Lemma job_invariant_fails_on_blank_item :
  exists w',
    scrape_film_jobs init web_blank_item world0 =
      (Ok [ {| JobRecord.title := "";
               JobRecord.description := "";
               JobRecord.location := "Leeds";
               JobRecord.source := "FilmJobs.com" |} ], w') /\
    ~ Forall job_invariant
        [ {| JobRecord.title := "";
             JobRecord.description := "";
             JobRecord.location := "Leeds";
             JobRecord.source := "FilmJobs.com" |} ].
Proof.
  eexists. split.
  - vm_compute. reflexivity.
  - intros H. inversion H as [| j jobs [Htitle _] _]. apply Htitle. reflexivity.
Qed.

(** The same happens on the requests-based adapters: a listing whose title
    and description elements are present and blank is emitted. *)
Example blank_listing_is_emitted :
  exists w',
    scrape_film_jobs init web_blank_listing world0 =
      (Ok [ {| JobRecord.title := "";
               JobRecord.description := "";
               JobRecord.location := "Remote";
               JobRecord.source := "ProductionHUB" |} ], w').
Proof. eexists. vm_compute. reflexivity. Qed.

(** C1, amended: for every record the aggregator returns, the description
    is at most 500 characters long and the source is one of the three
    adapter names or the synthetic marker; title and description are
    non-empty for the records that carry the synthetic marker.  (An adapter
    tests that the title and description elements are present, not that
    their text is non-empty.) *)
Theorem scrape_film_jobs_wellformed web w :
  exists jobs w',
    scrape_film_jobs init web w = (Ok jobs, w') /\ Forall job_wellformed jobs.
Proof.
  destruct (adapters_run init web w)
    as (j1 & w1 & j2 & w2 & j3 & w3 & H1 & H2 & H3 & [_ P1] & [_ P2] & [_ P3]).
  rewrite (scrape_film_jobs_run _ _ _ _ _ _ _ _ _ H1 H2 H3).
  assert (Hlive : Forall job_wellformed (j1 ++ j2 ++ j3)).
  { rewrite !Forall_app. repeat split;
      (eapply Forall_impl; [| eassumption]); intros j;
      apply stamped_wellformed; simpl; auto. }
  destruct (j1 ++ j2 ++ j3) as [| j jobs].
  - destruct (generate_fallback_jobs_returns w3) as (jobs & w4 & Hrun & Ht & Hd & Hs).
    exists jobs, w4. split; [exact Hrun |].
    apply Forall_forall. intros j Hin.
    rewrite Forall_forall in Hs. destruct (Hs j Hin) as [_ Hsrc].
    eapply fallback_job_wellformed; eassumption.
  - exists (j :: jobs), w3. split; [reflexivity | exact Hlive].
Qed.

(** C2: if every adapter returns an empty list, the aggregator returns
    exactly what the synthetic generator returns: as many records as there
    are titles, fifteen, each with the source 'Generated'. *)
Theorem all_adapters_empty_gives_fallback web w w1 w2 w3 :
  scrape_production_hub init web w = (Ok [], w1) ->
  scrape_film_jobs_com init web w1 = (Ok [], w2) ->
  scrape_mandy_network init web w2 = (Ok [], w3) ->
  scrape_film_jobs init web w = generate_fallback_jobs init w3 /\
  exists jobs w4,
    generate_fallback_jobs init w3 = (Ok jobs, w4) /\
    List.length jobs = List.length job_titles /\
    List.length job_titles = 15 /\
    Forall (fun j => JobRecord.source j = synthetic_marker) jobs.
Proof.
  intros H1 H2 H3.
  split; [apply (scrape_film_jobs_run _ _ _ _ _ _ _ _ _ H1 H2 H3) |].
  destruct (generate_fallback_jobs_returns w3) as (jobs & w4 & Hrun & Ht & _ & Hs).
  exists jobs, w4. repeat split; [exact Hrun | | ].
  - rewrite <- Ht. symmetry. apply length_map.
  - eapply Forall_impl; [| exact Hs]. intros j [_ Hsrc]. exact Hsrc.
Qed.

Lemma all_adapters_empty_gives_fallback_witness :
  exists w3 jobs w4,
    scrape_film_jobs init web_down world0 = generate_fallback_jobs init w3 /\
    generate_fallback_jobs init w3 = (Ok jobs, w4) /\
    List.length jobs = 15.
Proof.
  edestruct (all_adapters_empty_gives_fallback web_down world0)
    as (Hagg & jobs & w4 & Hgen & Hlen & Hfifteen & _);
    [reflexivity | reflexivity | reflexivity |].
  eexists. exists jobs, w4.
  split; [exact Hagg |]. split; [exact Hgen |].
  rewrite Hlen. exact Hfifteen.
Defined.

(** C3: if at least one adapter returns a record, the aggregator returns a
    non-empty list with no record marked 'Generated', which is the output
    of ProductionHUB, then that of FilmJobs.com, then that of Mandy
    Network, each in its own order. *)
Theorem some_adapter_nonempty_gives_concatenation web w j1 w1 j2 w2 j3 w3 :
  scrape_production_hub init web w = (Ok j1, w1) ->
  scrape_film_jobs_com init web w1 = (Ok j2, w2) ->
  scrape_mandy_network init web w2 = (Ok j3, w3) ->
  j1 <> [] \/ j2 <> [] \/ j3 <> [] ->
  exists jobs,
    scrape_film_jobs init web w = (Ok jobs, w3) /\
    jobs <> [] /\
    jobs = j1 ++ j2 ++ j3 /\
    Forall (fun j => JobRecord.source j <> synthetic_marker) jobs.
Proof.
  intros H1 H2 H3 Hsome.
  exists (j1 ++ j2 ++ j3).
  assert (Hne : j1 ++ j2 ++ j3 <> []).
  { intros Hnil. apply app_eq_nil in Hnil. destruct Hnil as [-> Hnil].
    apply app_eq_nil in Hnil. destruct Hnil as [-> ->]. tauto. }
  rewrite (scrape_film_jobs_run _ _ _ _ _ _ _ _ _ H1 H2 H3).
  repeat split; [| exact Hne |].
  - destruct (j1 ++ j2 ++ j3); [congruence | reflexivity].
  - destruct (adapter_returns (scrape_production_hub_spec init web w))
      as (j1' & w1' & H1' & _ & P1).
    destruct (adapter_returns (scrape_film_jobs_com_spec init web w1))
      as (j2' & w2' & H2' & _ & P2).
    destruct (adapter_returns (scrape_mandy_network_spec init web w2))
      as (j3' & w3' & H3' & _ & P3).
    rewrite H1 in H1'. rewrite H2 in H2'. rewrite H3 in H3'.
    injection H1' as <- _. injection H2' as <- _. injection H3' as <- _.
    rewrite !Forall_app. repeat split;
      (eapply Forall_impl; [| eassumption]); intros j;
      apply stamped_not_synthetic; simpl; auto.
Qed.

Lemma some_adapter_nonempty_gives_concatenation_witness :
  exists jobs w3,
    scrape_film_jobs init web_two_sites world0 = (Ok jobs, w3) /\
    jobs =
      [ {| JobRecord.title := "Gaffer";
           JobRecord.description := "Night shoot, LED rig.";
           JobRecord.location := "Remote";
           JobRecord.source := "ProductionHUB" |};
        {| JobRecord.title := "Grip";
           JobRecord.description := "Two weeks on location.";
           JobRecord.location := "Leeds";
           JobRecord.source := "Mandy Network" |} ].
Proof.
  edestruct (some_adapter_nonempty_gives_concatenation web_two_sites world0)
    as (jobs & Hrun & _ & Hjobs & _);
    [reflexivity | reflexivity | reflexivity | left; discriminate |].
  exists jobs. eexists. split; [exact Hrun | exact Hjobs].
Defined.

(** The requests-based adapters fill in 'Remote' for a candidate that has
    a title and a description and no location element. *)
Lemma production_hub_job_remote job_element title description l w :
  bs4.find job_element "h3" "job-title" = Ok (Some title) ->
  bs4.find job_element "div" "job-description" = Ok (Some description) ->
  bs4.find job_element "span" "location" = Ok None ->
  production_hub_job job_element l w =
    (Ok tt,
     l ++ [ {| JobRecord.title := bs4.get_text title;
               JobRecord.description :=
                 str_slice_to description_cap (bs4.get_text description);
               JobRecord.location := "Remote";
               JobRecord.source := "ProductionHUB" |} ],
     w).
Proof.
  intros Ht Hd Hl. unfold production_hub_job, try_except, bind, lift.
  rewrite Ht, Hd, Hl. reflexivity.
Qed.

Lemma mandy_network_job_remote job_element title description l w :
  bs4.find job_element "h2" "job-title" = Ok (Some title) ->
  bs4.find job_element "div" "job-summary" = Ok (Some description) ->
  bs4.find job_element "span" "location" = Ok None ->
  mandy_network_job job_element l w =
    (Ok tt,
     l ++ [ {| JobRecord.title := bs4.get_text title;
               JobRecord.description :=
                 str_slice_to description_cap (bs4.get_text description);
               JobRecord.location := "Remote";
               JobRecord.source := "Mandy Network" |} ],
     w).
Proof.
  intros Ht Hd Hl. unfold mandy_network_job, try_except, bind, lift.
  rewrite Ht, Hd, Hl. reflexivity.
Qed.

(** The browser adapter has no such default: a candidate whose location
    lookup raises is skipped, whatever its title and description. *)
Lemma film_jobs_com_job_without_location job_element e l w :
  selenium.find_element job_element selenium.By_CSS_SELECTOR ".job-location" = Raise e ->
  exists w', film_jobs_com_job job_element l w = (Ok tt, l, w').
Proof.
  intros Hl. unfold film_jobs_com_job, try_except, bind, lift, print.
  rewrite Hl.
  destruct (selenium.find_element job_element selenium.By_CSS_SELECTOR ".job-title")
    as [te | e1]; [| eexists; reflexivity].
  destruct (selenium.text te) as [t | e1]; [| eexists; reflexivity].
  destruct (selenium.find_element job_element selenium.By_CSS_SELECTOR ".job-description")
    as [de | e1]; [| eexists; reflexivity].
  destruct (selenium.text de) as [d | e1]; eexists; reflexivity.
Qed.

(** C4, at the input where the code departs from it: FilmJobs.com lists
    one item that has a title and a description and no location element.
    The claim has the adapter emit the record with the location 'Remote',
    as the two requests-based adapters do; the browser adapter returns no
    record. *)
Theorem film_jobs_com_drops_item_without_location :
  exists w',
    scrape_film_jobs_com init web_item_without_location world0 = (Ok [], w').
Proof. eexists. reflexivity. Qed.

(** C5: for every candidate of every adapter, the description of the
    emitted record is the candidate's description cut at 500 characters:
    of length exactly 500 when the candidate's is longer, and unchanged
    when it is at most 500 long. *)
Theorem description_truncation :
  (forall job_element title description location l w,
      bs4.find job_element "h3" "job-title" = Ok (Some title) ->
      bs4.find job_element "div" "job-description" = Ok (Some description) ->
      bs4.find job_element "span" "location" = Ok location ->
      exists j w',
        production_hub_job job_element l w = (Ok tt, l ++ [j], w') /\
        truncated (bs4.get_text description) j) /\
  (forall job_element title_element title description_element description
          location_element location l w,
      selenium.find_element job_element selenium.By_CSS_SELECTOR ".job-title"
        = Ok title_element ->
      selenium.text title_element = Ok title ->
      selenium.find_element job_element selenium.By_CSS_SELECTOR ".job-description"
        = Ok description_element ->
      selenium.text description_element = Ok description ->
      selenium.find_element job_element selenium.By_CSS_SELECTOR ".job-location"
        = Ok location_element ->
      selenium.text location_element = Ok location ->
      exists j w',
        film_jobs_com_job job_element l w = (Ok tt, l ++ [j], w') /\
        truncated description j) /\
  (forall job_element title description location l w,
      bs4.find job_element "h2" "job-title" = Ok (Some title) ->
      bs4.find job_element "div" "job-summary" = Ok (Some description) ->
      bs4.find job_element "span" "location" = Ok location ->
      exists j w',
        mandy_network_job job_element l w = (Ok tt, l ++ [j], w') /\
        truncated (bs4.get_text description) j).
Proof.
  split; [| split].
  - intros job_element title description location l w Ht Hd Hl.
    unfold production_hub_job, try_except, bind, lift.
    rewrite Ht, Hd, Hl. eexists. eexists. split; [reflexivity |].
    apply str_slice_to_truncated. reflexivity.
  - intros job_element te title de description le location l w Ht Ht' Hd Hd' Hl Hl'.
    unfold film_jobs_com_job, try_except, bind, lift.
    rewrite Ht, Ht', Hd, Hd', Hl, Hl'. eexists. eexists. split; [reflexivity |].
    apply str_slice_to_truncated. reflexivity.
  - intros job_element title description location l w Ht Hd Hl.
    unfold mandy_network_job, try_except, bind, lift.
    rewrite Ht, Hd, Hl. eexists. eexists. split; [reflexivity |].
    apply str_slice_to_truncated. reflexivity.
Qed.

Lemma description_truncation_witness :
  (exists j w',
      production_hub_job long_listing [] world0 = (Ok tt, [j], w') /\
      String.length (JobRecord.description j) = 500) /\
  (exists j w',
      film_jobs_com_job long_item [] world0 = (Ok tt, [j], w') /\
      String.length (JobRecord.description j) = 500) /\
  (exists j w',
      mandy_network_job (listing "Grip" "Two weeks." None) [] world0
        = (Ok tt, [j], w') /\
      JobRecord.description j = "Two weeks.").
Proof.
  destruct description_truncation as (Hhub & Hcom & Hmandy).
  split; [| split].
  - edestruct (Hhub long_listing) as (j & w' & Hrun & Hlong & _);
      [reflexivity | reflexivity | reflexivity |].
    exists j, w'. split; [exact Hrun |]. apply Hlong. vm_compute. lia.
  - edestruct (Hcom long_item) as (j & w' & Hrun & Hlong & _);
      [reflexivity | reflexivity | reflexivity | reflexivity | reflexivity
      | reflexivity |].
    exists j, w'. split; [exact Hrun |]. apply Hlong. vm_compute. lia.
  - edestruct (Hmandy (listing "Grip" "Two weeks." None))
      as (j & w' & Hrun & _ & Hshort);
      [reflexivity | reflexivity | reflexivity |].
    exists j, w'. split; [exact Hrun |]. apply Hshort. vm_compute. lia.
Defined.

(** C6: whatever the sites answer, [scrape_production_hub] returns at most
    20 records, [scrape_film_jobs_com] at most 15 and
    [scrape_mandy_network] at most 10. *)
Theorem adapter_caps self web w :
  (exists jobs w',
      scrape_production_hub self web w = (Ok jobs, w') /\ List.length jobs <= 20) /\
  (exists jobs w',
      scrape_film_jobs_com self web w = (Ok jobs, w') /\ List.length jobs <= 15) /\
  (exists jobs w',
      scrape_mandy_network self web w = (Ok jobs, w') /\ List.length jobs <= 10).
Proof.
  destruct (adapter_returns (scrape_production_hub_spec self web w))
    as (j1 & w1 & H1 & L1 & _).
  destruct (adapter_returns (scrape_film_jobs_com_spec self web w))
    as (j2 & w2 & H2 & L2 & _).
  destruct (adapter_returns (scrape_mandy_network_spec self web w))
    as (j3 & w3 & H3 & L3 & _).
  repeat split; eauto.
Qed.

(** A page of 25 listings yields exactly 20 records. *)
Example production_hub_cap_reached :
  exists jobs w',
    scrape_production_hub init
      {| requests_get := fun _ => Ok (page (repeat (listing "Grip" "Day call." None) 25));
         Chrome := fun _ => Raise (WebDriverException "chromedriver not found") |}
      world0 = (Ok jobs, w') /\
    List.length jobs = 20.
Proof. eexists. eexists. split; reflexivity. Qed.

(** C7: whatever exception the fetch or the extraction of any adapter
    raises, each adapter returns a list to the aggregator, the adapters
    after it still run, and the aggregator returns a list that holds every
    record the adapters returned. *)
Theorem adapter_failures_isolated web w :
  exists j1 w1 j2 w2 j3 w3 jobs w4,
    scrape_production_hub init web w = (Ok j1, w1) /\
    scrape_film_jobs_com init web w1 = (Ok j2, w2) /\
    scrape_mandy_network init web w2 = (Ok j3, w3) /\
    scrape_film_jobs init web w = (Ok jobs, w4) /\
    incl (j1 ++ j2 ++ j3) jobs.
Proof.
  destruct (adapters_run init web w)
    as (j1 & w1 & j2 & w2 & j3 & w3 & H1 & H2 & H3 & _).
  exists j1, w1, j2, w2, j3, w3.
  rewrite (scrape_film_jobs_run _ _ _ _ _ _ _ _ _ H1 H2 H3).
  destruct (j1 ++ j2 ++ j3) as [| j jobs].
  - destruct (generate_fallback_jobs_returns w3) as (jobs & w4 & Hrun & _).
    exists jobs, w4. repeat split; auto. intros j [].
  - exists (j :: jobs), w3. repeat split; auto. apply incl_refl.
Qed.

(** A candidate that raises is skipped and the next one is kept; what was
    collected survives an exception raised after the loop. *)
Example partial_result_is_returned :
  exists w',
    scrape_film_jobs init web_quit_fails world0 =
      (Ok [ {| JobRecord.title := "Editor";
               JobRecord.description := "Feature film, Avid.";
               JobRecord.location := "Leeds";
               JobRecord.source := "FilmJobs.com" |} ], w').
Proof. eexists. vm_compute. reflexivity. Qed.

(** When the page loads and the items are listed, the browser adapter
    calls [quit] once the loop is over, whatever the items hold. *)
Lemma session_released_when_page_loads self web w driver job_elements :
  Chrome web (chrome_options self) = Ok driver ->
  selenium.get driver "https://www.filmjobs.com" = Ok tt ->
  selenium.find_elements driver selenium.By_CSS_SELECTOR ".job-item"
    = Ok job_elements ->
  exists jobs w',
    scrape_film_jobs_com self web w = (Ok jobs, w') /\
    browser w' = browser w ++ [SessionStarted; QuitCalled].
Proof.
  intros HChrome Hget Hfind.
  assert (H : wpf (scrape_film_jobs_com self web)
                (fun r w' => exists jobs,
                     r = Ok jobs /\
                     browser w' = browser w ++ [SessionStarted; QuitCalled]) w).
  { unfold scrape_film_jobs_com.
    apply wpf_def, wp_bind, wp_try, wp_bind.
    unfold wp at 1, webdriver_Chrome. rewrite HChrome.
    apply wp_bind, wp_lift. rewrite Hget.
    apply wp_bind, wp_ret, wp_bind, wp_lift. rewrite Hfind.
    apply wp_bind.
    eapply wp_mono; [apply for_collects, film_jobs_com_job_collects |].
    intros r l' w' (-> & Hb & js & -> & _).
    unfold wp, driver_quit.
    destruct (selenium.quit driver) as [[] | e]; simpl;
      exists js; (split; [reflexivity |]);
      rewrite Hb; simpl; rewrite <- app_assoc; reflexivity. }
  apply wpf_run in H. destruct H as (r & w' & Hrun & jobs & -> & Hb).
  exists jobs, w'. auto.
Qed.

(** C8, at the input where the code departs from it: Chrome starts and
    the page load raises.  The claim has the adapter call [quit] on this
    exit path too; the adapter returns with the session started and [quit]
    never called, because the call of [quit] is the last statement of the
    [try] block and not a cleanup clause. *)
Theorem session_not_released_when_page_load_fails :
  exists w',
    scrape_film_jobs_com init web_page_load_fails world0 = (Ok [], w') /\
    browser w' = [SessionStarted] /\
    session_released w' = false.
Proof. eexists. repeat split. Qed.

(** C9: [scrape_film_professionals] returns exactly 100 profiles, and in
    each the skills are between 3 and 8 distinct members of the skills
    vocabulary, the role is a member of the categories vocabulary and the
    location a member of the flattened locations vocabulary: one of the
    city names that [film_locations] lists under one of its regions. *)
Theorem scrape_film_professionals_valid w :
  exists professionals w',
    scrape_film_professionals init w = (Ok professionals, w') /\
    List.length professionals = 100 /\
    Forall (profile_valid init) professionals.
Proof.
  destruct (wpf_run _ _ _ (scrape_film_professionals_spec w))
    as (r & w' & Hrun & professionals & -> & Hlen & Hvalid).
  exists professionals, w'. auto.
Qed.

(** C10: the title list and the description list both have 15 entries, so
    the index modulo the number of descriptions is the index itself; the
    [i]-th fallback job has the [i]-th title and the [i]-th description,
    whatever the random source draws. *)
Theorem fallback_titles_and_descriptions_fixed :
  List.length job_titles = 15 /\
  List.length job_descriptions = 15 /\
  (forall i, i < List.length job_titles ->
             i mod List.length job_descriptions = i) /\
  forall w, exists jobs w',
    generate_fallback_jobs init w = (Ok jobs, w') /\
    map JobRecord.title jobs = job_titles /\
    map JobRecord.description jobs = job_descriptions /\
    forall i j, nth_error jobs i = Some j ->
                nth_error job_titles i = Some (JobRecord.title j) /\
                nth_error job_descriptions i = Some (JobRecord.description j).
Proof.
  split; [reflexivity |]. split; [reflexivity |]. split.
  - intros i Hi. apply Nat.mod_small. exact Hi.
  - intros w.
    destruct (generate_fallback_jobs_returns w) as (jobs & w' & Hrun & Ht & Hd & _).
    exists jobs, w'. repeat split; [exact Hrun | exact Ht | exact Hd | |];
      intros; [rewrite <- Ht | rewrite <- Hd];
      apply map_nth_error; assumption.
Qed.

(** ** Beyond the claims: the adapters as functions of the page *)

Lemma quiet_refl w : quiet w w.
Proof. unfold quiet. repeat split; auto. exists []. rewrite app_nil_r. reflexivity. Qed.

Lemma quiet_trans w1 w2 w3 : quiet w1 w2 -> quiet w2 w3 -> quiet w1 w3.
Proof.
  intros (He & Hc & Hb & l1 & Hs) (He' & Hc' & Hb' & l2 & Hs').
  unfold quiet. repeat split; try congruence.
  exists (l1 ++ l2). rewrite Hs', Hs, app_assoc. reflexivity.
Qed.

Lemma quiet_printed w line : quiet w (printed w line).
Proof. unfold quiet, printed; simpl. repeat split; auto. exists [line]. reflexivity. Qed.

Ltac emitted :=
  unfold emits; simpl;
  repeat split; auto using app_nil_r, quiet_refl;
  try (symmetry; apply app_nil_r);
  try apply quiet_refl;
  try apply (quiet_printed _ _).

Lemma production_hub_job_emits job_element l w :
  wp (production_hub_job job_element) (emits (production_hub_records job_element) l w) l w.
Proof.
  unfold production_hub_job, production_hub_records, wp, try_except, bind, lift,
    append, print, ret.
  destruct (bs4.find job_element "h3" "job-title") as [[t |] | e];
    destruct (bs4.find job_element "div" "job-description") as [[d |] | e'];
    destruct (bs4.find job_element "span" "location") as [[loc |] | e''];
    emitted.
Qed.

Lemma mandy_network_job_emits job_element l w :
  wp (mandy_network_job job_element) (emits (mandy_network_records job_element) l w) l w.
Proof.
  unfold mandy_network_job, mandy_network_records, wp, try_except, bind, lift,
    append, print, ret.
  destruct (bs4.find job_element "h2" "job-title") as [[t |] | e];
    destruct (bs4.find job_element "div" "job-summary") as [[d |] | e'];
    destruct (bs4.find job_element "span" "location") as [[loc |] | e''];
    emitted.
Qed.

Lemma film_jobs_com_job_emits job_element l w :
  wp (film_jobs_com_job job_element) (emits (film_jobs_com_records job_element) l w) l w.
Proof.
  unfold film_jobs_com_job, film_jobs_com_records, element_text, wp, try_except,
    bind, lift, append, print, ret.
  destruct (selenium.find_element job_element selenium.By_CSS_SELECTOR ".job-title")
    as [te | e]; [destruct (selenium.text te) as [t | e] |];
    (destruct (selenium.find_element job_element selenium.By_CSS_SELECTOR ".job-description")
      as [de | e']; [destruct (selenium.text de) as [d | e'] |]);
    (destruct (selenium.find_element job_element selenium.By_CSS_SELECTOR ".job-location")
      as [le | e'']; [destruct (selenium.text le) as [loc | e''] |]);
    emitted.
Qed.

(** A loop whose body emits [f x] for the candidate [x] leaves the
    accumulator extended by the records of the candidates, in order. *)
Lemma for_emits {A} (body : A -> M (list JobRecord.t) unit) f xs :
  (forall x l w, wp (body x) (emits (f x) l w) l w) ->
  forall l w, wp (for_ xs body) (emits (flat_map f xs) l w) l w.
Proof.
  intros Hbody l w.
  eapply wp_mono.
  - apply (wp_for body
             (fun done l' w' => l' = l ++ flat_map f done /\ quiet w w')).
    + intros done x rest l1 w1 _ (-> & Hq).
      eapply wp_mono; [apply Hbody |].
      intros r l' w' (-> & -> & Hq'). split; [reflexivity |]. split.
      * rewrite flat_map_app. simpl. rewrite app_nil_r, app_assoc. reflexivity.
      * eapply quiet_trans; eassumption.
    + split; [simpl; rewrite app_nil_r; reflexivity | apply quiet_refl].
  - intros r l' w' (-> & -> & Hq). unfold emits. auto.
Qed.

(** X1: when the ProductionHUB page is fetched and its listing elements
    found, the adapter returns, in page order, the records of the first 20
    elements: one for each element whose lookups answer and that has a
    title and a description, none for the others.  Elements past the 20th
    are not looked at, however many of the first 20 were skipped. *)
Theorem scrape_production_hub_records self web w soup job_elements :
  requests_get web "https://www.productionhub.com/jobs" = Ok soup ->
  bs4.find_all soup "div" "job-listing" = Ok job_elements ->
  exists w',
    scrape_production_hub self web w =
      (Ok (flat_map production_hub_records (slice_to 20 job_elements)), w') /\
    quiet w w'.
Proof.
  intros Hget Hall.
  assert (H : wpf (scrape_production_hub self web)
                (fun r w' =>
                   r = Ok (flat_map production_hub_records (slice_to 20 job_elements)) /\
                   quiet w w') w).
  { unfold scrape_production_hub.
    apply wpf_def, wp_bind, wp_try, wp_bind, wp_lift. rewrite Hget.
    apply wp_bind, wp_lift. rewrite Hall.
    eapply wp_mono; [apply for_emits, production_hub_job_emits |].
    intros r l' w' (-> & -> & Hq). split; [reflexivity | exact Hq]. }
  apply wpf_run in H. destruct H as (r & w' & Hrun & -> & Hq).
  exists w'. auto.
Qed.

Lemma scrape_production_hub_records_witness :
  exists w',
    scrape_production_hub init web_two_sites world0 =
      (Ok [ {| JobRecord.title := "Gaffer";
               JobRecord.description := "Night shoot, LED rig.";
               JobRecord.location := "Remote";
               JobRecord.source := "ProductionHUB" |} ], w').
Proof.
  edestruct (scrape_production_hub_records init web_two_sites world0)
    as (w' & Hrun & _); [reflexivity | reflexivity |].
  exists w'. exact Hrun.
Defined.

(** X2: the same for Mandy Network, with the first 10 elements. *)
Theorem scrape_mandy_network_records self web w soup job_elements :
  requests_get web "https://www.mandy.com/jobs" = Ok soup ->
  bs4.find_all soup "div" "job-card" = Ok job_elements ->
  exists w',
    scrape_mandy_network self web w =
      (Ok (flat_map mandy_network_records (slice_to 10 job_elements)), w') /\
    quiet w w'.
Proof.
  intros Hget Hall.
  assert (H : wpf (scrape_mandy_network self web)
                (fun r w' =>
                   r = Ok (flat_map mandy_network_records (slice_to 10 job_elements)) /\
                   quiet w w') w).
  { unfold scrape_mandy_network.
    apply wpf_def, wp_bind, wp_try, wp_bind, wp_lift. rewrite Hget.
    apply wp_bind, wp_lift. rewrite Hall.
    eapply wp_mono; [apply for_emits, mandy_network_job_emits |].
    intros r l' w' (-> & -> & Hq). split; [reflexivity | exact Hq]. }
  apply wpf_run in H. destruct H as (r & w' & Hrun & -> & Hq).
  exists w'. auto.
Qed.

Lemma scrape_mandy_network_records_witness :
  exists w',
    scrape_mandy_network init web_two_sites world0 =
      (Ok [ {| JobRecord.title := "Grip";
               JobRecord.description := "Two weeks on location.";
               JobRecord.location := "Leeds";
               JobRecord.source := "Mandy Network" |} ], w').
Proof.
  edestruct (scrape_mandy_network_records init web_two_sites world0)
    as (w' & Hrun & _); [reflexivity | reflexivity |].
  exists w'. exact Hrun.
Defined.

(** The browser adapter once Chrome has started: what it returns and what
    it leaves in the browser log. *)
Lemma scrape_film_jobs_com_started self web w driver :
  Chrome web (chrome_options self) = Ok driver ->
  wpf (scrape_film_jobs_com self web)
      (fun r w' =>
         r = Ok (match selenium.get driver "https://www.filmjobs.com",
                       selenium.find_elements driver selenium.By_CSS_SELECTOR ".job-item" with
                 | Ok _, Ok job_elements =>
                     flat_map film_jobs_com_records (slice_to 15 job_elements)
                 | _, _ => []
                 end) /\
         entropy w' = entropy w /\ consumed w' = consumed w /\
         browser w' =
           browser w ++ SessionStarted ::
             (if page_listed driver then [QuitCalled] else [])) w.
Proof.
  intros HChrome. unfold scrape_film_jobs_com, page_listed.
  apply wpf_def, wp_bind, wp_try, wp_bind.
  unfold wp at 1, webdriver_Chrome. rewrite HChrome.
  apply wp_bind, wp_lift.
  destruct (selenium.get driver _) as [[] | e];
    [| unfold wp; simpl; auto].
  apply wp_bind, wp_ret, wp_bind, wp_lift.
  destruct (selenium.find_elements driver _ _) as [job_elements | e];
    [| unfold wp; simpl; auto].
  apply wp_bind.
  eapply wp_mono; [apply for_emits, film_jobs_com_job_emits |].
  intros r l' w' (-> & -> & He & Hc & Hb & _).
  unfold wp, driver_quit.
  destruct (selenium.quit driver) as [[] | e]; simpl;
    rewrite Hb; simpl; rewrite <- app_assoc; auto.
Qed.

(** X3: when Chrome starts, the page loads and the items are listed, the
    browser adapter returns, in page order, the records of the first 15
    items: one for each item whose title, description and location are
    all found and readable, none for the others.  This holds whether or
    not [quit] raises afterwards. *)
Theorem scrape_film_jobs_com_records self web w driver job_elements :
  Chrome web (chrome_options self) = Ok driver ->
  selenium.get driver "https://www.filmjobs.com" = Ok tt ->
  selenium.find_elements driver selenium.By_CSS_SELECTOR ".job-item"
    = Ok job_elements ->
  exists w',
    scrape_film_jobs_com self web w =
      (Ok (flat_map film_jobs_com_records (slice_to 15 job_elements)), w').
Proof.
  intros HChrome Hget Hfind.
  destruct (wpf_run _ _ _ (scrape_film_jobs_com_started self web w driver HChrome))
    as (r & w' & Hrun & -> & _).
  rewrite Hget, Hfind in Hrun. exists w'. exact Hrun.
Qed.

Lemma scrape_film_jobs_com_records_witness :
  exists w',
    scrape_film_jobs_com init web_quit_fails world0 =
      (Ok [ {| JobRecord.title := "Editor";
               JobRecord.description := "Feature film, Avid.";
               JobRecord.location := "Leeds";
               JobRecord.source := "FilmJobs.com" |} ], w').
Proof.
  edestruct (scrape_film_jobs_com_records init web_quit_fails world0)
    as (w' & Hrun); [reflexivity | reflexivity | reflexivity |].
  exists w'. exact Hrun.
Defined.

(** X4: once Chrome has started, the browser adapter returns with the
    session released exactly when the page loaded and the items were
    listed: it then called [quit] once, after the loop.  When the page
    load or the listing raises, the adapter returns no record and leaves
    the session started and not quit. *)
Theorem scrape_film_jobs_com_session self web w driver :
  Chrome web (chrome_options self) = Ok driver ->
  exists jobs w',
    scrape_film_jobs_com self web w = (Ok jobs, w') /\
    browser w' =
      browser w ++ SessionStarted ::
        (if page_listed driver then [QuitCalled] else []) /\
    (page_listed driver = false -> jobs = []).
Proof.
  intros HChrome.
  destruct (wpf_run _ _ _ (scrape_film_jobs_com_started self web w driver HChrome))
    as (r & w' & Hrun & -> & _ & _ & Hb).
  eexists. exists w'. split; [exact Hrun |]. split; [exact Hb |].
  unfold page_listed.
  destruct (selenium.get driver _) as [[] | e]; [| reflexivity].
  destruct (selenium.find_elements driver _ _); [discriminate | reflexivity].
Qed.

Lemma scrape_film_jobs_com_session_witness :
  (exists jobs w',
      scrape_film_jobs_com init web_quit_fails world0 = (Ok jobs, w') /\
      browser w' = [SessionStarted; QuitCalled]) /\
  (exists w',
      scrape_film_jobs_com init web_page_load_fails world0 = (Ok [], w') /\
      browser w' = [SessionStarted]).
Proof.
  split.
  - edestruct (scrape_film_jobs_com_session init web_quit_fails world0)
      as (jobs & w' & Hrun & Hb & _); [reflexivity |].
    exists jobs, w'. split; [exact Hrun | exact Hb].
  - edestruct (scrape_film_jobs_com_session init web_page_load_fails world0)
      as (jobs & w' & Hrun & Hb & Hnone); [reflexivity |].
    exists w'. rewrite <- (Hnone eq_refl). split; [exact Hrun | exact Hb].
Defined.

(** X5: an adapter whose site cannot be reached, or whose page cannot be
    searched, returns the empty list and prints one line that names the
    adapter and carries the message of the exception; nothing else
    changes, and the browser adapter starts no session when Chrome does
    not start. *)
Theorem unreachable_site_gives_no_record self web w :
  (forall e,
      requests_get web "https://www.productionhub.com/jobs" = Raise e ->
      scrape_production_hub self web w =
        (Ok [], printed w (String.append "Error scraping ProductionHUB: " (str e)))) /\
  (forall soup e,
      requests_get web "https://www.productionhub.com/jobs" = Ok soup ->
      bs4.find_all soup "div" "job-listing" = Raise e ->
      scrape_production_hub self web w =
        (Ok [], printed w (String.append "Error scraping ProductionHUB: " (str e)))) /\
  (forall e,
      requests_get web "https://www.mandy.com/jobs" = Raise e ->
      scrape_mandy_network self web w =
        (Ok [], printed w (String.append "Error scraping Mandy Network: " (str e)))) /\
  (forall soup e,
      requests_get web "https://www.mandy.com/jobs" = Ok soup ->
      bs4.find_all soup "div" "job-card" = Raise e ->
      scrape_mandy_network self web w =
        (Ok [], printed w (String.append "Error scraping Mandy Network: " (str e)))) /\
  (forall e,
      Chrome web (chrome_options self) = Raise e ->
      scrape_film_jobs_com self web w =
        (Ok [], printed w (String.append "Error scraping FilmJobs.com: " (str e)))).
Proof.
  repeat split.
  - intros e He. unfold scrape_production_hub, def, bind, try_except, lift.
    rewrite He. reflexivity.
  - intros soup e Hs He. unfold scrape_production_hub, def, bind, try_except, lift.
    rewrite Hs, He. reflexivity.
  - intros e He. unfold scrape_mandy_network, def, bind, try_except, lift.
    rewrite He. reflexivity.
  - intros soup e Hs He. unfold scrape_mandy_network, def, bind, try_except, lift.
    rewrite Hs, He. reflexivity.
  - intros e He.
    unfold scrape_film_jobs_com, def, bind, try_except, webdriver_Chrome.
    rewrite He. reflexivity.
Qed.

Lemma unreachable_site_gives_no_record_witness :
  scrape_production_hub init web_down world0 =
    (Ok [], printed world0 "Error scraping ProductionHUB: connection refused") /\
  scrape_mandy_network init web_down world0 =
    (Ok [], printed world0 "Error scraping Mandy Network: connection refused") /\
  scrape_film_jobs_com init web_down world0 =
    (Ok [], printed world0 "Error scraping FilmJobs.com: chromedriver not found").
Proof.
  destruct (unreachable_site_gives_no_record init web_down world0)
    as (Hhub & _ & Hmandy & _ & Hcom).
  split; [| split].
  - apply (Hhub (RequestException "connection refused")). reflexivity.
  - apply (Hmandy (RequestException "connection refused")). reflexivity.
  - apply (Hcom (WebDriverException "chromedriver not found")). reflexivity.
Defined.

Lemma scrape_production_hub_quiet self web w :
  wpf (scrape_production_hub self web) (fun _ w' => quiet w w') w.
Proof.
  unfold scrape_production_hub.
  apply wpf_def, wp_bind, wp_try, wp_bind, wp_lift.
  destruct (requests_get web _) as [soup | e];
    [| unfold wp; simpl; apply (quiet_printed w)].
  apply wp_bind, wp_lift.
  destruct (bs4.find_all soup _ _) as [job_elements | e];
    [| unfold wp; simpl; apply (quiet_printed w)].
  eapply wp_mono; [apply for_emits, production_hub_job_emits |].
  intros r l' w' (-> & _ & Hq). exact Hq.
Qed.

Lemma scrape_mandy_network_quiet self web w :
  wpf (scrape_mandy_network self web) (fun _ w' => quiet w w') w.
Proof.
  unfold scrape_mandy_network.
  apply wpf_def, wp_bind, wp_try, wp_bind, wp_lift.
  destruct (requests_get web _) as [soup | e];
    [| unfold wp; simpl; apply (quiet_printed w)].
  apply wp_bind, wp_lift.
  destruct (bs4.find_all soup _ _) as [job_elements | e];
    [| unfold wp; simpl; apply (quiet_printed w)].
  eapply wp_mono; [apply for_emits, mandy_network_job_emits |].
  intros r l' w' (-> & _ & Hq). exact Hq.
Qed.

Lemma scrape_film_jobs_com_random self web w :
  wpf (scrape_film_jobs_com self web)
      (fun _ w' => entropy w' = entropy w /\ consumed w' = consumed w) w.
Proof.
  destruct (Chrome web (chrome_options self)) as [driver | e] eqn:HChrome.
  - eapply wpf_mono; [apply (scrape_film_jobs_com_started _ _ _ _ HChrome) |].
    intros r w' (_ & He & Hc & _). auto.
  - unfold wpf, scrape_film_jobs_com, def, bind, try_except, webdriver_Chrome.
    rewrite HChrome. simpl. auto.
Qed.

(** X6: no adapter draws from the random source, and the two
    requests-based adapters leave the browser log alone: all they do to
    the world is print. *)
Theorem adapters_leave_random_source self web w :
  (exists jobs w', scrape_production_hub self web w = (Ok jobs, w') /\ quiet w w') /\
  (exists jobs w', scrape_mandy_network self web w = (Ok jobs, w') /\ quiet w w') /\
  (exists jobs w',
      scrape_film_jobs_com self web w = (Ok jobs, w') /\
      entropy w' = entropy w /\ consumed w' = consumed w).
Proof.
  destruct (adapter_returns (scrape_production_hub_spec self web w))
    as (j1 & w1 & H1 & _).
  destruct (adapter_returns (scrape_mandy_network_spec self web w))
    as (j3 & w3 & H3 & _).
  destruct (adapter_returns (scrape_film_jobs_com_spec self web w))
    as (j2 & w2 & H2 & _).
  pose proof (scrape_production_hub_quiet self web w) as Q1.
  pose proof (scrape_mandy_network_quiet self web w) as Q3.
  pose proof (scrape_film_jobs_com_random self web w) as Q2.
  unfold wpf in Q1, Q2, Q3. rewrite H1 in Q1. rewrite H2 in Q2. rewrite H3 in Q3.
  split; [| split].
  - exists j1, w1. auto.
  - exists j3, w3. auto.
  - exists j2, w2. auto.
Qed.

(** ** Beyond the claims: the generators and the aggregator *)

Lemma drew_advance n w w' : drew n w w' -> drew (n + 1) w (advance w').
Proof.
  intros (He & Hc & Hb & Hs). unfold drew, advance; simpl.
  repeat split; auto. lia.
Qed.

(** The synthetic generator of any scraper with a city to choose from. *)
Lemma generate_fallback_jobs_draws self w :
  cities self <> [] ->
  wpf (generate_fallback_jobs self)
      (fun r w' => exists jobs,
           r = Ok jobs /\
           Forall2 (fallback_of self) (enumerate job_titles) jobs /\
           drew 15 w w') w.
Proof.
  intros Hcities. unfold generate_fallback_jobs.
  apply wpf_def, wp_bind.
  eapply wp_mono.
  - apply (wp_for _ (fun done l w' =>
                       Forall2 (fallback_of self) done l /\
                       drew (List.length done) w w')).
    + intros done [i title] rest l w1 _ [HI Hd].
      apply wp_bind, wp_random_choice; [exact Hcities |].
      intros location Hloc.
      apply wp_bind, wp_mod_; [simpl; lia |].
      destruct (nth_error job_descriptions (i mod List.length job_descriptions))
        as [description |] eqn:Hdesc.
      2:{ apply nth_error_None in Hdesc.
          pose proof (Nat.mod_upper_bound i (List.length job_descriptions)).
          simpl in *. lia. }
      apply wp_bind. eapply wp_getitem; [exact Hdesc |].
      unfold wp, append. split; [reflexivity |]. split.
      * apply Forall2_app; [exact HI |].
        constructor; [| constructor]. unfold fallback_of; simpl. auto.
      * rewrite length_app. simpl. apply drew_advance, Hd.
    + split; [constructor |]. unfold drew. simpl. repeat split; auto.
  - intros r l w1 (-> & HI & Hd). apply wp_get_local. exists l. auto.
Qed.

(** X7: for a scraper with at least one city, the synthetic generator
    returns 15 jobs, and the location of each is one of the city names
    that [film_locations] lists under one of its regions; it takes exactly
    15 draws from the random source, one per job, prints nothing and
    leaves the browser log alone. *)
Theorem generate_fallback_jobs_locations self w :
  cities self <> [] ->
  exists jobs w',
    generate_fallback_jobs self w = (Ok jobs, w') /\
    List.length jobs = 15 /\
    Forall (fun j => located self (JobRecord.location j)) jobs /\
    drew 15 w w'.
Proof.
  intros Hcities.
  destruct (wpf_run _ _ _ (generate_fallback_jobs_draws self w Hcities))
    as (r & w' & Hrun & jobs & -> & Hrel & Hd).
  exists jobs, w'. split; [exact Hrun |].
  pose proof (Forall2_length Hrel) as Hlen.
  apply fallback_of_fields in Hrel. destruct Hrel as (_ & _ & Hs).
  repeat split; try apply Hd.
  - rewrite <- Hlen. reflexivity.
  - eapply Forall_impl; [| exact Hs]. intros j [Hl _].
    apply cities_located, Hl.
Qed.

Lemma generate_fallback_jobs_locations_witness :
  exists jobs w',
    generate_fallback_jobs small_scraper world0 = (Ok jobs, w') /\
    List.length jobs = 15 /\ consumed w' = 15 /\
    Forall (fun j => located small_scraper (JobRecord.location j)) jobs.
Proof.
  destruct (generate_fallback_jobs_locations small_scraper world0)
    as (jobs & w' & Hrun & Hlen & Hloc & _ & Hc & _); [discriminate |].
  exists jobs, w'. split; [exact Hrun |]. split; [exact Hlen |].
  split; [exact Hc | exact Hloc].
Defined.

(** X8: for a scraper with no city at all, the synthetic generator raises
    [IndexError] at its first job, and so does the aggregator when every
    adapter returned the empty list: the fallback has no handler. *)
Theorem fallback_without_cities_raises self web w w1 w2 w3 :
  cities self = [] ->
  scrape_production_hub self web w = (Ok [], w1) ->
  scrape_film_jobs_com self web w1 = (Ok [], w2) ->
  scrape_mandy_network self web w2 = (Ok [], w3) ->
  generate_fallback_jobs self w3 =
    (Raise (IndexError "Cannot choose from an empty sequence"), w3) /\
  scrape_film_jobs self web w =
    (Raise (IndexError "Cannot choose from an empty sequence"), w3).
Proof.
  intros Hcities H1 H2 H3.
  assert (Hgen : generate_fallback_jobs self w3 =
                   (Raise (IndexError "Cannot choose from an empty sequence"), w3)).
  { unfold generate_fallback_jobs. rewrite Hcities. reflexivity. }
  split; [exact Hgen |].
  rewrite (scrape_film_jobs_run _ _ _ _ _ _ _ _ _ H1 H2 H3). exact Hgen.
Qed.

Lemma fallback_without_cities_raises_witness :
  exists w3,
    scrape_film_jobs bare_scraper web_down world0 =
      (Raise (IndexError "Cannot choose from an empty sequence"), w3).
Proof.
  edestruct (fallback_without_cities_raises bare_scraper web_down world0)
    as (_ & Hagg); [reflexivity | reflexivity | reflexivity | reflexivity |].
  eexists. exact Hagg.
Defined.

Lemma scrape_film_jobs_bounds web w :
  exists jobs w',
    scrape_film_jobs init web w = (Ok jobs, w') /\
    1 <= List.length jobs <= 45.
Proof.
  destruct (adapters_run init web w)
    as (j1 & w1 & j2 & w2 & j3 & w3 & H1 & H2 & H3 & [L1 _] & [L2 _] & [L3 _]).
  rewrite (scrape_film_jobs_run _ _ _ _ _ _ _ _ _ H1 H2 H3).
  assert (Hlen : List.length (j1 ++ j2 ++ j3) <= 45).
  { rewrite !length_app. lia. }
  destruct (j1 ++ j2 ++ j3) as [| j jobs].
  - destruct (generate_fallback_jobs_returns w3) as (jobs & w4 & Hrun & Ht & _).
    exists jobs, w4. split; [exact Hrun |].
    rewrite <- (length_map JobRecord.title), Ht. simpl. lia.
  - exists (j :: jobs), w3. split; [reflexivity |]. simpl in *. lia.
Qed.

(** X9: the aggregator never returns an empty list and never more than
    45 records, whatever the sites answer. *)
Theorem scrape_film_jobs_size web w :
  exists jobs w',
    scrape_film_jobs init web w = (Ok jobs, w') /\
    1 <= List.length jobs <= 45.
Proof. apply scrape_film_jobs_bounds. Qed.

(** X10: the aggregator's result is all scraped or all synthetic, and the
    random source tells which: with any scraped record no record is
    marked 'Generated' and no draw was taken; otherwise all 15 records
    are marked 'Generated' and exactly 15 draws were taken. *)
Theorem scrape_film_jobs_all_or_nothing web w :
  exists jobs w',
    scrape_film_jobs init web w = (Ok jobs, w') /\
    entropy w' = entropy w /\
    ((Forall (fun j => JobRecord.source j <> synthetic_marker) jobs /\
      consumed w' = consumed w) \/
     (Forall (fun j => JobRecord.source j = synthetic_marker) jobs /\
      List.length jobs = 15 /\ consumed w' = consumed w + 15)).
Proof.
  destruct (adapter_returns (scrape_production_hub_spec init web w))
    as (j1 & w1 & H1 & _ & P1).
  destruct (adapter_returns (scrape_film_jobs_com_spec init web w1))
    as (j2 & w2 & H2 & _ & P2).
  destruct (adapter_returns (scrape_mandy_network_spec init web w2))
    as (j3 & w3 & H3 & _ & P3).
  pose proof (scrape_production_hub_quiet init web w) as Q1.
  pose proof (scrape_film_jobs_com_random init web w1) as Q2.
  pose proof (scrape_mandy_network_quiet init web w2) as Q3.
  unfold wpf in Q1, Q2, Q3. rewrite H1 in Q1. rewrite H2 in Q2. rewrite H3 in Q3.
  destruct Q1 as (E1 & C1 & _). destruct Q2 as (E2 & C2).
  destruct Q3 as (E3 & C3 & _).
  assert (He : entropy w3 = entropy w) by congruence.
  assert (Hc : consumed w3 = consumed w) by congruence.
  rewrite (scrape_film_jobs_run _ _ _ _ _ _ _ _ _ H1 H2 H3).
  assert (Hlive : Forall (fun j => JobRecord.source j <> synthetic_marker)
                    (j1 ++ j2 ++ j3)).
  { rewrite !Forall_app. repeat split;
      (eapply Forall_impl; [| eassumption]); intros j;
      apply stamped_not_synthetic; simpl; auto. }
  destruct (j1 ++ j2 ++ j3) as [| j jobs].
  - destruct (wpf_run _ _ _ (generate_fallback_jobs_draws init w3 init_cities_nonempty))
      as (r & w4 & Hrun & jobs & -> & Hrel & He4 & Hc4 & _).
    pose proof (Forall2_length Hrel) as Hlen.
    apply fallback_of_fields in Hrel. destruct Hrel as (_ & _ & Hs).
    exists jobs, w4. split; [exact Hrun |]. split; [congruence |].
    right. repeat split; [| rewrite <- Hlen; reflexivity | lia].
    eapply Forall_impl; [| exact Hs]. intros j [_ Hsrc]. exact Hsrc.
  - exists (j :: jobs), w3. split; [reflexivity |]. split; [exact He |].
    left. split; [exact Hlive | exact Hc].
Qed.

(** Profiles, for any scraper whose vocabularies can be sampled by the
    pool of [random_sample]. *)
Lemma scrape_film_professionals_general self w :
  film_categories self <> [] ->
  cities self <> [] ->
  NoDup (film_skills self) ->
  8 <= List.length (film_skills self) ->
  wpf (scrape_film_professionals self)
      (fun r _ => exists professionals,
           r = Ok professionals /\ List.length professionals = 100 /\
           Forall (fun p => profile_valid self p /\ profile_drawn p) professionals) w.
Proof.
  intros Hcat Hcities Hnd Hlen8.
  unfold scrape_film_professionals.
  apply wpf_def, wp_bind.
  eapply wp_mono.
  - apply (wp_for _ (fun done l _ =>
                       List.length l = List.length done /\
                       Forall (fun p => profile_valid self p /\ profile_drawn p) l)).
    + intros done i rest l w1 _ (Hlen & Hvalid).
      apply wp_bind, wp_random_choice; [discriminate |]. intros firstName Hfirst.
      apply wp_bind, wp_random_choice; [discriminate |]. intros lastName Hlast.
      apply wp_bind, wp_random_choice; [exact Hcat |]. intros role Hrole.
      apply wp_bind, wp_random_choice; [discriminate |]. intros bio Hbio.
      apply wp_bind, wp_random_randint; [lia |]. intros size Hsize.
      apply wp_bind, wp_call.
      eapply wpf_mono; [apply random_sample_spec; [lia | exact Hnd] |].
      intros r w2 (skills & -> & Hk & Hnd' & Hincl).
      apply wp_bind, wp_call. unfold generate_film_experience.
      apply wpf_def, wp_random_choice; [discriminate |]. intros experience Hexp.
      apply wp_bind, wp_random_choice; [exact Hcities |]. intros location Hloc.
      unfold wp, append. split; [reflexivity |].
      rewrite !length_app. simpl. split; [lia |].
      apply Forall_app. split; [exact Hvalid |].
      constructor; [| constructor].
      unfold profile_valid, profile_drawn;
        cbn [ProfessionalProfile.skills ProfessionalProfile.role
             ProfessionalProfile.location ProfessionalProfile.firstName
             ProfessionalProfile.lastName ProfessionalProfile.bio
             ProfessionalProfile.experience].
      apply cities_located in Hloc.
      repeat split; try lia; assumption.
    + simpl. auto.
  - intros r l w1 (-> & Hlen & Hvalid). apply wp_get_local.
    exists l. unfold range in Hlen. rewrite length_seq in Hlen. auto.
Qed.

(** X11: for any scraper whose categories and locations are not empty and
    whose skills vocabulary has between 8 and 21 entries, all distinct,
    profile generation returns 100 profiles, each valid for that scraper's
    vocabularies.  (Up to 21 entries [random.sample] works on a pool, as
    [random_sample] does.) *)
Theorem scrape_film_professionals_any_vocabulary self w :
  film_categories self <> [] ->
  cities self <> [] ->
  NoDup (film_skills self) ->
  8 <= List.length (film_skills self) <= 21 ->
  exists professionals w',
    scrape_film_professionals self w = (Ok professionals, w') /\
    List.length professionals = 100 /\
    Forall (profile_valid self) professionals.
Proof.
  intros Hcat Hcities Hnd [Hlen8 _].
  destruct (wpf_run _ _ _ (scrape_film_professionals_general self w Hcat Hcities Hnd Hlen8))
    as (r & w' & Hrun & professionals & -> & Hlen & Hall).
  exists professionals, w'. repeat split; [exact Hrun | exact Hlen |].
  eapply Forall_impl; [| exact Hall]. intros p [Hp _]. exact Hp.
Qed.

Lemma scrape_film_professionals_any_vocabulary_witness :
  exists professionals w',
    scrape_film_professionals small_scraper world0 = (Ok professionals, w') /\
    List.length professionals = 100 /\
    Forall (profile_valid small_scraper) professionals.
Proof.
  destruct (scrape_film_professionals_any_vocabulary small_scraper world0)
    as (professionals & w' & Hrun & Hlen & Hvalid);
    [discriminate | discriminate | apply distinct_NoDup; reflexivity
    | simpl; lia |].
  exists professionals, w'. split; [exact Hrun |]. split; [exact Hlen | exact Hvalid].
Defined.

(** X12: in every generated profile the first name, the last name, the
    biography and the experience are entries of their lists. *)
Theorem scrape_film_professionals_drawn w :
  exists professionals w',
    scrape_film_professionals init w = (Ok professionals, w') /\
    Forall profile_drawn professionals.
Proof.
  assert (Hnd : NoDup (film_skills init)) by (apply distinct_NoDup; reflexivity).
  assert (Hlen8 : 8 <= List.length (film_skills init)) by (simpl; lia).
  assert (Hcat : film_categories init <> []) by discriminate.
  destruct (wpf_run _ _ _
              (scrape_film_professionals_general init w Hcat init_cities_nonempty
                 Hnd Hlen8))
    as (r & w' & Hrun & professionals & -> & _ & Hall).
  exists professionals, w'. split; [exact Hrun |].
  eapply Forall_impl; [| exact Hall]. intros p [_ Hp]. exact Hp.
Qed.

(** X13: profile generation has no handler, and fails at the first
    profile when a vocabulary is too small.  With no category it raises
    [IndexError] when it chooses the first role, two draws after the
    start; with categories and fewer than 3 skills it raises [ValueError]
    when it samples the first skills, five draws after the start, the
    sample being larger than the population.  Nothing else has changed in
    the world by then. *)
Theorem scrape_film_professionals_small_vocabulary self w :
  (film_categories self = [] ->
   scrape_film_professionals self w =
     (Raise (IndexError "Cannot choose from an empty sequence"),
      advance (advance w))) /\
  (film_categories self <> [] ->
   List.length (film_skills self) < 3 ->
   scrape_film_professionals self w =
     (Raise (ValueError "Sample larger than population or is negative"),
      advance (advance (advance (advance (advance w)))))).
Proof.
  split.
  - intros Hcat.
    assert (H : wpf (scrape_film_professionals self)
                  (fun r w' =>
                     r = Raise (IndexError "Cannot choose from an empty sequence") /\
                     w' = advance (advance w)) w).
    { unfold scrape_film_professionals.
      apply wpf_def, wp_bind.
      change (range 100) with (0 :: seq 1 99). cbn [for_].
      apply wp_bind.
      apply wp_bind, wp_random_choice; [discriminate |]. intros firstName _.
      apply wp_bind, wp_random_choice; [discriminate |]. intros lastName _.
      apply wp_bind. rewrite Hcat. apply wp_raise. split; reflexivity. }
    apply wpf_run in H. destruct H as (r & w' & Hrun & -> & ->). exact Hrun.
  - intros Hcat Hlen.
    assert (H : wpf (scrape_film_professionals self)
                  (fun r w' =>
                     r = Raise (ValueError "Sample larger than population or is negative") /\
                     w' = advance (advance (advance (advance (advance w))))) w).
    { unfold scrape_film_professionals.
      apply wpf_def, wp_bind.
      change (range 100) with (0 :: seq 1 99). cbn [for_].
      apply wp_bind.
      apply wp_bind, wp_random_choice; [discriminate |]. intros firstName _.
      apply wp_bind, wp_random_choice; [discriminate |]. intros lastName _.
      apply wp_bind, wp_random_choice; [exact Hcat |]. intros role _.
      apply wp_bind, wp_random_choice; [discriminate |]. intros bio _.
      apply wp_bind, wp_random_randint; [lia |]. intros size Hsize.
      apply wp_bind, wp_call. unfold random_sample. apply wpf_def.
      destruct (Nat.ltb_spec (List.length (film_skills self)) size) as [_ | Hge];
        [| lia].
      apply wp_raise. split; reflexivity. }
    apply wpf_run in H. destruct H as (r & w' & Hrun & -> & ->). exact Hrun.
Qed.

Lemma scrape_film_professionals_small_vocabulary_witness :
  (exists w',
      scrape_film_professionals bare_scraper world0 =
        (Raise (IndexError "Cannot choose from an empty sequence"), w') /\
      consumed w' = 2 /\ stdout w' = []) /\
  (exists w',
      scrape_film_professionals two_skill_scraper world0 =
        (Raise (ValueError "Sample larger than population or is negative"), w') /\
      consumed w' = 5 /\ stdout w' = []).
Proof.
  split.
  - eexists. split.
    + apply (proj1 (scrape_film_professionals_small_vocabulary bare_scraper world0)).
      reflexivity.
    + split; reflexivity.
  - eexists. split.
    + apply (proj2 (scrape_film_professionals_small_vocabulary two_skill_scraper world0)).
      * discriminate.
      * simpl. lia.
    + split; reflexivity.
Defined.

(** X14: [generate_film_experience] returns one of its ten templates,
    takes exactly one draw and changes nothing else. *)
Theorem generate_film_experience_template self w :
  exists experience,
    generate_film_experience self w = (Ok experience, advance w) /\
    In experience experiences /\
    List.length experiences = 10.
Proof.
  assert (H : wp (L := unit) (random_choice experiences)
                (fun r l' w' => exists x, r = Ok x /\ In x experiences /\ w' = advance w)
                tt w).
  { apply wp_random_choice; [discriminate |]. intros x Hx. exists x. auto. }
  apply wp_run in H. destruct H as (r & l' & w' & Hrun & x & -> & Hx & ->).
  exists x. unfold generate_film_experience, def. rewrite Hrun. auto.
Qed.

(** ** Beyond the claims: the export *)

Lemma eqb_other path filename : path <> filename -> String.eqb path filename = false.
Proof. intros H. apply String.eqb_neq, H. Qed.

(** [run_scraper] up to the export: both lists are produced, whatever the
    sites answer, and the export is what remains to run. *)
Lemma run_scraper_scrapes web h :
  exists jobs professionals w',
    scraped init web (world h) jobs professionals w' /\
    1 <= List.length jobs <= 45 /\
    List.length professionals = 100 /\
    run_scraper init web h =
      host_bind (save_to_json init jobs professionals default_filename)
        (fun _ => host_ret (jobs, professionals)) (with_world h w').
Proof.
  destruct (scrape_film_jobs_bounds web
              (printed (printed (world h) "Starting film industry data scraping...")
                 "Scraping film industry jobs..."))
    as (jobs & w1 & Hjobs & Hsize).
  destruct (wpf_run _ _ _
              (scrape_film_professionals_spec
                 (printed (printed w1 (String.append "Scraped "
                                         (String.append (str_nat (List.length jobs))
                                            " jobs")))
                    "Generating film professional profiles...")))
    as (r & w2 & Hprofs & professionals & -> & Hlen & _).
  exists jobs, professionals. eexists.
  split; [exists w1, w2; split; [exact Hjobs |]; split; [exact Hprofs | reflexivity] |].
  split; [exact Hsize |]. split; [exact Hlen |].
  unfold run_scraper.
  unfold host_bind at 1, host_print at 1. unfold host_bind at 1, host_print at 1.
  unfold host_bind at 1, in_world at 1. cbn [world with_world]. rewrite Hjobs.
  unfold host_bind at 1, host_print at 1. unfold host_bind at 1, host_print at 1.
  unfold host_bind at 1, in_world at 1. cbn [world with_world]. rewrite Hprofs.
  unfold host_bind at 1, host_print at 1. cbn [world with_world files open_w write_w opened now asked].
  reflexivity.
Qed.





(** X19: when [open] succeeds and the writing or the closing of the
    export file raises, [run_scraper] raises that exception once both
    lists were produced: nothing is returned, and the export file is left
    truncated, so that an older export in it is lost; every other file is
    as before. *)
Theorem run_scraper_write_failure web h e :
  open_w h (opened h) default_filename = None ->
  write_w h (opened h) default_filename = Some e ->
  exists jobs professionals w' h',
    scraped init web (world h) jobs professionals w' /\
    run_scraper init web h = (Raised e, h') /\
    world h' = w' /\
    files h' default_filename = Some Truncated /\
    (forall path, path <> default_filename -> files h' path = files h path).
Proof.
  intros Hopen Hwrite.
  destruct (run_scraper_scrapes web h)
    as (jobs & professionals & w' & Hscraped & _ & _ & Hrun).
  exists jobs, professionals, w'. eexists.
  split; [exact Hscraped |].
  split.
  - rewrite Hrun.
    unfold save_to_json, host_bind, datetime_now_isoformat, dump_to, host_print,
      host_ret, with_world, after_open.
    cbn [world files open_w write_w opened now asked].
    rewrite Hopen, Hwrite. reflexivity.
  - cbn [world files].
    split; [reflexivity |].
    split; [rewrite String.eqb_refl; reflexivity |].
    intros path Hpath. rewrite (eqb_other _ _ Hpath). reflexivity.
Qed.

Lemma run_scraper_write_failure_witness :
  exists h',
    run_scraper init web_down host_disk_full =
      (Raised (OSError "[Errno 28] No space left on device"), h') /\
    files host_disk_full default_filename = Some (Document (json.Object [])) /\
    files h' default_filename = Some Truncated.
Proof.
  destruct (run_scraper_write_failure web_down host_disk_full
              (OSError "[Errno 28] No space left on device"))
    as (jobs & professionals & w' & h' & _ & Hrun & _ & Hfile & _);
    [reflexivity | reflexivity |].
  exists h'. split; [exact Hrun |]. split; [reflexivity | exact Hfile].
Defined.

(** X17: [save_to_json] replaces the file it is given and touches no
    other.  When two saves to the same file both open, write and close it
    without an exception, the file holds after the first save the snapshot
    of the first lists at the first time read, and after the second the
    snapshot of the second lists at the second time read and nothing of
    the first, whatever it held before; every other file is as it was. *)
Theorem save_to_json_overwrites self jobs1 professionals1 jobs2 professionals2
    filename h :
  open_w h (opened h) filename = None ->
  write_w h (opened h) filename = None ->
  open_w h (S (opened h)) filename = None ->
  write_w h (S (opened h)) filename = None ->
  exists h1 h2,
    save_to_json self jobs1 professionals1 filename h = (Returned tt, h1) /\
    files h1 filename =
      Some (Document (snapshot self jobs1 professionals1 (now h (asked h)))) /\
    save_to_json self jobs2 professionals2 filename h1 = (Returned tt, h2) /\
    files h2 filename =
      Some (Document (snapshot self jobs2 professionals2 (now h (S (asked h))))) /\
    (forall path, path <> filename -> files h2 path = files h path).
Proof.
  intros Hopen1 Hwrite1 Hopen2 Hwrite2.
  unfold save_to_json, host_bind, datetime_now_isoformat, dump_to, host_print,
    with_world, after_open.
  cbn [world files open_w write_w opened now asked].
  rewrite Hopen1, Hwrite1.
  eexists. eexists. split; [reflexivity |].
  cbn [world files open_w write_w opened now asked].
  rewrite Hopen2, Hwrite2.
  split; [rewrite String.eqb_refl; reflexivity |].
  split; [reflexivity |].
  cbn [files].
  split; [rewrite String.eqb_refl; reflexivity |].
  intros path Hpath. rewrite !(eqb_other _ _ Hpath). reflexivity.
Qed.

Lemma save_to_json_overwrites_witness :
  exists h1 h2,
    save_to_json init [gaffer_job] [] default_filename host_old_export
      = (Returned tt, h1) /\
    files h1 default_filename =
      Some (Document (snapshot init [gaffer_job] [] "2024-05-01T10:00:00.000000")) /\
    save_to_json init [] [] default_filename h1 = (Returned tt, h2) /\
    files h2 default_filename =
      Some (Document (snapshot init [] [] "2024-05-01T10:00:01.000000")) /\
    files h2 default_filename <> files h1 default_filename.
Proof.
  destruct (save_to_json_overwrites init [gaffer_job] [] [] [] default_filename
              host_old_export)
    as (h1 & h2 & H1 & Hfile1 & H2 & Hfile2 & _);
    [reflexivity | reflexivity | reflexivity | reflexivity |].
  exists h1, h2.
  split; [exact H1 |]. split; [exact Hfile1 |].
  split; [exact H2 |]. split; [exact Hfile2 |].
  rewrite Hfile1, Hfile2. discriminate.
Defined.

Lemma stamped_sources name jobs :
  Forall (stamped name) jobs ->
  map JobRecord.source jobs = repeat name (List.length jobs).
Proof.
  induction 1 as [| j jobs [_ Hsrc] _ IH]; simpl; [reflexivity |].
  rewrite Hsrc, IH. reflexivity.
Qed.

(** X18: the records the aggregator returns are grouped by provenance:
    their sources read as at most 20 times 'ProductionHUB', then at most
    15 times 'FilmJobs.com', then at most 10 times 'Mandy Network', unless
    none was scraped, and then as 15 times 'Generated'. *)
Theorem scrape_film_jobs_grouped_by_source web w :
  exists jobs w',
    scrape_film_jobs init web w = (Ok jobs, w') /\
    ((exists a b c,
         a <= 20 /\ b <= 15 /\ c <= 10 /\ 1 <= a + b + c /\
         map JobRecord.source jobs =
           repeat "ProductionHUB" a ++ repeat "FilmJobs.com" b
             ++ repeat "Mandy Network" c) \/
     map JobRecord.source jobs = repeat synthetic_marker 15).
Proof.
  destruct (adapters_run init web w)
    as (j1 & w1 & j2 & w2 & j3 & w3 & H1 & H2 & H3 & [L1 P1] & [L2 P2] & [L3 P3]).
  rewrite (scrape_film_jobs_run _ _ _ _ _ _ _ _ _ H1 H2 H3).
  destruct (j1 ++ j2 ++ j3) as [| j jobs] eqn:Hjobs.
  - destruct (generate_fallback_jobs_returns w3) as (jobs & w4 & Hrun & Ht & _ & Hs).
    exists jobs, w4. split; [exact Hrun |]. right.
    assert (Hlen : List.length jobs = 15).
    { rewrite <- (length_map JobRecord.title), Ht. reflexivity. }
    rewrite <- Hlen. clear Hlen Ht Hrun.
    induction Hs as [| j jobs [_ Hsrc] _ IH]; simpl; [reflexivity |].
    rewrite Hsrc, IH. reflexivity.
  - exists (j :: jobs), w3. split; [reflexivity |]. left.
    exists (List.length j1), (List.length j2), (List.length j3).
    repeat split; try assumption.
    + assert (Hl : List.length (j1 ++ j2 ++ j3) = S (List.length jobs))
        by (rewrite Hjobs; reflexivity).
      rewrite !length_app in Hl. lia.
    + rewrite <- Hjobs, !map_app.
      rewrite (stamped_sources _ _ P1), (stamped_sources _ _ P2),
        (stamped_sources _ _ P3).
      reflexivity.
Qed.
